(** * Admin dashboard: list-and-mutate controllers of the four screens

    A shallow embedding of the event handlers of the messages, users, orders
    and products screens ([src/app/messages/page.tsx], [src/app/user/page.tsx]).

    Each React component keeps its view state in [useState] cells; here the
    cells of one screen form a record.  A handler is an asynchronous function
    that talks to the document-store client and to the browser dialogs; here it
    is a finite tree of requests whose continuations receive the answers.  The
    client and the dialogs are outside the program: their answers are supplied
    by a [World] that the theorems quantify over. *)

From Stdlib Require Import List String Ascii Bool Arith Lia ZArith DecimalString.
From Stdlib Require Import Permutation.
Import ListNotations.
Open Scope string_scope.
Open Scope list_scope.

(** ** JavaScript operators used by the handlers *)

(** Truthiness of a string: every string but the empty one. *)
Definition truthy (s : string) : bool := negb (s =? "")%string.

(** Truthiness of an optional string property ([undefined] is falsy). *)
Definition truthyOpt (o : option string) : bool :=
  match o with
  | Some s => truthy s
  | None => false
  end.

(** [a || d] on an optional string. *)
Definition orDefault (o : option string) (d : string) : string :=
  match o with
  | Some s => if truthy s then s else d
  | None => d
  end.

(** [a ?? d]. *)
Definition nullish {A : Type} (o : option A) (d : A) : A :=
  match o with
  | Some a => a
  | None => d
  end.

(** [a || d] on an optional number. *)
Definition orDefaultZ (o : option Z) (d : Z) : Z :=
  match o with
  | Some n => if (n =? 0)%Z then d else n
  | None => d
  end.

(** ** Handlers as request trees *)

Section Handlers.

(** [St]: the [useState] cells of the screen; [PatchP], [CreateP]: what is
    handed to [client.patch(id).set(..)] and [client.create(..)]; [Doc]: the
    document a mutation resolves to; [Row]: one row of the list query. *)
Variables St PatchP CreateP Doc Row : Type.

Inductive Handler : Type :=
| Done
| SetState (f : St -> St) (k : Handler)
| Confirm (msg : string) (k : bool -> Handler)
| Alert (msg : string) (k : Handler)
| ClientDelete (id : string) (k : bool -> Handler)
| ClientPatch (id : string) (p : PatchP) (k : option Doc -> Handler)
| ClientCreate (p : CreateP) (k : option Doc -> Handler)
| ClientFetch (k : option (list Row) -> Handler).

(** Running one handler after another ([await h(); k()]). *)
Fixpoint andThen (h k : Handler) : Handler :=
  match h with
  | Done => k
  | SetState f h' => SetState f (andThen h' k)
  | Confirm m c => Confirm m (fun b => andThen (c b) k)
  | Alert m h' => Alert m (andThen h' k)
  | ClientDelete id c => ClientDelete id (fun b => andThen (c b) k)
  | ClientPatch id p c => ClientPatch id p (fun r => andThen (c r) k)
  | ClientCreate p c => ClientCreate p (fun r => andThen (c r) k)
  | ClientFetch c => ClientFetch (fun r => andThen (c r) k)
  end.

(** What the outside answers during one run of a handler.  A promise that
    rejects is [false] / [None]. *)
Record World : Type := mkWorld {
  confirmAnswer : string -> bool;
  deleteResult : string -> bool;
  patchResult : string -> PatchP -> option Doc;
  createResult : CreateP -> option Doc;
  fetchResult : option (list Row)
}.

(** What an observer of the browser and of the network sees. *)
Inductive Event : Type :=
| EvConfirm (msg : string) (answer : bool)
| EvAlert (msg : string)
| EvDelete (id : string) (ok : bool)
| EvPatch (id : string) (p : PatchP) (r : option Doc)
| EvCreate (p : CreateP) (r : option Doc)
| EvFetch (r : option (list Row)).

Fixpoint run (h : Handler) (w : World) (st : St) : St * list Event :=
  match h with
  | Done => (st, [])
  | SetState f k => run k w (f st)
  | Confirm m k =>
      let b := confirmAnswer w m in
      let '(st', tr) := run (k b) w st in (st', EvConfirm m b :: tr)
  | Alert m k =>
      let '(st', tr) := run k w st in (st', EvAlert m :: tr)
  | ClientDelete id k =>
      let b := deleteResult w id in
      let '(st', tr) := run (k b) w st in (st', EvDelete id b :: tr)
  | ClientPatch id p k =>
      let r := patchResult w id p in
      let '(st', tr) := run (k r) w st in (st', EvPatch id p r :: tr)
  | ClientCreate p k =>
      let r := createResult w p in
      let '(st', tr) := run (k r) w st in (st', EvCreate p r :: tr)
  | ClientFetch k =>
      let r := fetchResult w in
      let '(st', tr) := run (k r) w st in (st', EvFetch r :: tr)
  end.

(** A handler is a closure over the values of the render that created it:
    it is built from the state it was rendered with and then runs on it. *)
Definition fire (h : St -> Handler) (w : World) (st : St) : St * list Event :=
  run (h st) w st.

Definition isAlert (e : Event) : bool :=
  match e with EvAlert _ => true | _ => false end.

Definition isCreate (e : Event) : bool :=
  match e with EvCreate _ _ => true | _ => false end.

Definition isPatch (e : Event) : bool :=
  match e with EvPatch _ _ _ => true | _ => false end.

(** A mutation (create or patch) that the backend rejected / accepted. *)
Definition isFailedMutation (e : Event) : bool :=
  match e with
  | EvCreate _ None | EvPatch _ _ None => true
  | _ => false
  end.

Definition isDoneMutation (e : Event) : bool :=
  match e with
  | EvCreate _ (Some _) | EvPatch _ _ (Some _) => true
  | _ => false
  end.

End Handlers.

Arguments Done {St PatchP CreateP Doc Row}.
Arguments SetState {St PatchP CreateP Doc Row} f k.
Arguments Confirm {St PatchP CreateP Doc Row} msg k.
Arguments Alert {St PatchP CreateP Doc Row} msg k.
Arguments ClientDelete {St PatchP CreateP Doc Row} id k.
Arguments ClientPatch {St PatchP CreateP Doc Row} id p k.
Arguments ClientCreate {St PatchP CreateP Doc Row} p k.
Arguments ClientFetch {St PatchP CreateP Doc Row} k.
Arguments andThen {St PatchP CreateP Doc Row} h k.
Arguments run {St PatchP CreateP Doc Row} h w st.
Arguments fire {St PatchP CreateP Doc Row} h w st.
Arguments mkWorld {PatchP CreateP Doc Row}.
Arguments confirmAnswer {PatchP CreateP Doc Row} w msg.
Arguments deleteResult {PatchP CreateP Doc Row} w id.
Arguments patchResult {PatchP CreateP Doc Row} w id p.
Arguments createResult {PatchP CreateP Doc Row} w p.
Arguments fetchResult {PatchP CreateP Doc Row} w.
Arguments EvConfirm {PatchP CreateP Doc Row} msg answer.
Arguments EvAlert {PatchP CreateP Doc Row} msg.
Arguments EvDelete {PatchP CreateP Doc Row} id ok.
Arguments EvPatch {PatchP CreateP Doc Row} id p r.
Arguments EvCreate {PatchP CreateP Doc Row} p r.
Arguments EvFetch {PatchP CreateP Doc Row} r.
Arguments isAlert {PatchP CreateP Doc Row} e.
Arguments isCreate {PatchP CreateP Doc Row} e.
Arguments isPatch {PatchP CreateP Doc Row} e.
Arguments isFailedMutation {PatchP CreateP Doc Row} e.
Arguments isDoneMutation {PatchP CreateP Doc Row} e.

(** ** Messages screen ([src/app/messages/page.tsx]) *)

Module Messages.

Record Message : Type := mkMessage {
  _id : string;
  name : string;
  email : string;
  message : string;
  createdAt : string;
  pinned : bool
}.

Record State : Type := mkState {
  messages : list Message;
  loading : bool;
  selectedMessage : option Message
}.

Definition setMessages (f : list Message -> list Message) (st : State) : State :=
  {| messages := f (messages st);
     loading := loading st;
     selectedMessage := selectedMessage st |}.

Definition setLoading (b : bool) (st : State) : State :=
  {| messages := messages st;
     loading := b;
     selectedMessage := selectedMessage st |}.

(** The payload of [.set({ pinned: !currentPinned })]. *)
Record PinPatch : Type := mkPinPatch { set_pinned : bool }.

(** The screen never creates a message. *)
Definition H := Handler State PinPatch Empty_set Message Message.
Definition W := World PinPatch Empty_set Message Message.

Definition fetchMessages : H :=
  SetState (setLoading true)
    (ClientFetch (fun r =>
       match r with
       | Some data =>
           SetState (setMessages (fun _ => data))
             (SetState (setLoading false) Done)
       | None => SetState (setLoading false) Done
       end)).

Definition handleDelete (id : string) : H :=
  Confirm "Are you sure you want to delete this message?" (fun yes =>
    if yes then
      ClientDelete id (fun ok =>
        if ok then
          SetState
            (setMessages (filter (fun msg => negb (_id msg =? id)%string)))
            Done
        else Alert "Failed to delete message" Done)
    else Done).

(** [{ ...msg, pinned: p }] *)
Definition withPinned (msg : Message) (p : bool) : Message :=
  {| _id := _id msg; name := name msg; email := email msg;
     message := message msg; createdAt := createdAt msg; pinned := p |}.

Definition togglePin (id : string) (currentPinned : bool) : H :=
  ClientPatch id {| set_pinned := negb currentPinned |} (fun r =>
    match r with
    | Some updated =>
        SetState
          (setMessages
             (map (fun msg =>
                     if (_id msg =? id)%string
                     then withPinned msg (pinned updated) else msg)))
          Done
    | None => Alert "Failed to update pin state" Done
    end).

Definition pinnedMessages (st : State) : list Message :=
  filter (fun msg => pinned msg) (messages st).

Definition unpinnedMessages (st : State) : list Message :=
  filter (fun msg => negb (pinned msg)) (messages st).

(** The cards from top to bottom: none while the list is loading ("Loading
    messages..." stands in their place), otherwise the pinned section, then
    the rest. *)
Definition rendered (st : State) : list Message :=
  if loading st then [] else pinnedMessages st ++ unpinnedMessages st.

(** [createdAt] is a string; the query orders it as one. *)
Definition notOlder (a b : Message) : bool :=
  String.leb (createdAt b) (createdAt a).

Fixpoint newestFirst (l : list Message) : bool :=
  match l with
  | [] => true
  | a :: rest => forallb (notOlder a) rest && newestFirst rest
  end.

(** [order(pinned desc, createdAt desc)]: [a] may stand before [b]. *)
Definition queryBefore (a b : Message) : bool :=
  match pinned a, pinned b with
  | true, false => true
  | false, true => false
  | _, _ => notOlder a b
  end.

Fixpoint queryOrdered (l : list Message) : bool :=
  match l with
  | [] => true
  | a :: rest => forallb (queryBefore a) rest && queryOrdered rest
  end.

Definition initial : State :=
  {| messages := []; loading := false; selectedMessage := None |}.

End Messages.

(** ** Users screen ([AdminUsersPage] in [src/app/user/page.tsx]) *)

Module Users.

Record Address : Type := mkAddress {
  street : string;
  city : string;
  state : string;
  country : string;
  postalCode : string
}.

Record User : Type := mkUser {
  _id : string;
  name : string;
  email : string;
  mobileNumber : string;
  password : string;
  address : Address;
  isVerified : bool;
  role : string
}.

(** [UserInput]: every property optional ([in_] marks the form buffer). *)
Record AddressInput : Type := mkAddressInput {
  in_street : option string;
  in_city : option string;
  in_state : option string;
  in_country : option string;
  in_postalCode : option string
}.

Record UserInput : Type := mkUserInput {
  in__id : option string;
  in_name : option string;
  in_email : option string;
  in_mobileNumber : option string;
  in_password : option string;
  in_address : option AddressInput;
  in_isVerified : option bool;
  in_role : option string
}.

(** [NewUserDocument = Omit<User, "_id"> & { _type: "user" }]. *)
Record NewUserDocument : Type := mkNewUserDocument {
  new__type : string;
  new_name : string;
  new_email : string;
  new_mobileNumber : string;
  new_password : string;
  new_address : Address;
  new_isVerified : bool;
  new_role : string
}.

(** [SanityUser]: a row of the list query. *)
Record SanityUser : Type := mkSanityUser {
  doc__id : string;
  doc_name : string;
  doc_email : string;
  doc_mobileNumber : string;
  doc_password : string;
  doc_address : Address;
  doc_isVerified : bool;
  doc_role : string;
  doc__type : string
}.

Record State : Type := mkState {
  users : list User;
  loading : bool;
  editingUser : option User;
  showAddForm : bool;
  formState : UserInput;
  showPassword : bool
}.

Definition setUsers (f : list User -> list User) (st : State) : State :=
  {| users := f (users st); loading := loading st;
     editingUser := editingUser st; showAddForm := showAddForm st;
     formState := formState st; showPassword := showPassword st |}.

Definition setLoading (b : bool) (st : State) : State :=
  {| users := users st; loading := b;
     editingUser := editingUser st; showAddForm := showAddForm st;
     formState := formState st; showPassword := showPassword st |}.

Definition setEditingUser (u : option User) (st : State) : State :=
  {| users := users st; loading := loading st;
     editingUser := u; showAddForm := showAddForm st;
     formState := formState st; showPassword := showPassword st |}.

Definition setShowAddForm (b : bool) (st : State) : State :=
  {| users := users st; loading := loading st;
     editingUser := editingUser st; showAddForm := b;
     formState := formState st; showPassword := showPassword st |}.

Definition setFormState (fs : UserInput) (st : State) : State :=
  {| users := users st; loading := loading st;
     editingUser := editingUser st; showAddForm := showAddForm st;
     formState := fs; showPassword := showPassword st |}.

(** [{}] *)
Definition emptyInput : UserInput :=
  {| in__id := None; in_name := None; in_email := None;
     in_mobileNumber := None; in_password := None; in_address := None;
     in_isVerified := None; in_role := None |}.

(** A [User] read as a [UserInput] ([setFormState(user)]). *)
Definition inputOfUser (u : User) : UserInput :=
  {| in__id := Some (_id u); in_name := Some (name u);
     in_email := Some (email u);
     in_mobileNumber := Some (mobileNumber u);
     in_password := Some (password u);
     in_address :=
       Some {| in_street := Some (street (address u));
               in_city := Some (city (address u));
               in_state := Some (state (address u));
               in_country := Some (country (address u));
               in_postalCode := Some (postalCode (address u)) |};
     in_isVerified := Some (isVerified u); in_role := Some (role u) |}.

Definition H := Handler State UserInput NewUserDocument User SanityUser.
Definition W := World UserInput NewUserDocument User SanityUser.

Definition mapDoc (doc : SanityUser) : User :=
  {| _id := doc__id doc; name := doc_name doc; email := doc_email doc;
     mobileNumber := doc_mobileNumber doc; password := doc_password doc;
     address := doc_address doc; isVerified := doc_isVerified doc;
     role := doc_role doc |}.

Definition fetchUsers : H :=
  SetState (setLoading true)
    (ClientFetch (fun r =>
       match r with
       | Some data =>
           SetState (setUsers (fun _ => map mapDoc data))
             (SetState (setLoading false) Done)
       | None => SetState (setLoading false) Done
       end)).

Definition handleDelete (id : string) : H :=
  Confirm "Are you sure you want to delete this user?" (fun yes =>
    if yes then
      ClientDelete id (fun ok =>
        if ok then
          SetState (setUsers (filter (fun user => negb (_id user =? id)%string)))
            Done
        else Alert "Failed to delete user" Done)
    else Done).

Definition handleEditClick (user : User) : H :=
  SetState (setEditingUser (Some user))
    (SetState (setFormState (inputOfUser user))
       (SetState (setShowAddForm true) Done)).

Definition handleCancelEdit : H :=
  SetState (setEditingUser None)
    (SetState (setFormState emptyInput)
       (SetState (setShowAddForm false) Done)).

(** The "Add New User" button. *)
Definition clickAddNew : H :=
  SetState (setShowAddForm true)
    (SetState (setEditingUser None)
       (SetState (setFormState emptyInput) Done)).

Definition handleUpdate (st : State) : H :=
  match editingUser st with
  | Some eu =>
      if truthy (_id eu) then
        ClientPatch (_id eu) (formState st) (fun r =>
          match r with
          | Some updated =>
              SetState
                (setUsers
                   (map (fun u => if (_id u =? _id eu)%string then updated else u)))
                (SetState (setEditingUser None)
                   (SetState (setFormState emptyInput)
                      (SetState (setShowAddForm false) Done)))
          | None => Alert "Failed to update user" Done
          end)
      else Done
  | None => Done
  end.

(** [formState.address?.f] *)
Definition addressField (f : AddressInput -> option string)
    (fs : UserInput) : option string :=
  match in_address fs with
  | Some a => f a
  | None => None
  end.

(** The guard of [handleAddNew]: [true] when a required field is missing. *)
Definition missingRequired (fs : UserInput) : bool :=
  negb (truthyOpt (in_name fs)) ||
  negb (truthyOpt (in_email fs)) ||
  negb (truthyOpt (in_mobileNumber fs)) ||
  negb (truthyOpt (in_password fs)) ||
  negb (truthyOpt (addressField in_street fs)) ||
  negb (truthyOpt (addressField in_city fs)) ||
  negb (truthyOpt (addressField in_state fs)) ||
  negb (truthyOpt (addressField in_country fs)) ||
  negb (truthyOpt (addressField in_postalCode fs)).

(** [x!]: the non-null assertion leaves the value as it is; behind the
    guard above every asserted property is a non-empty string. *)
Definition bang (o : option string) : string :=
  match o with
  | Some s => s
  | None => ""
  end.

Definition newUserData (fs : UserInput) : NewUserDocument :=
  {| new__type := "user";
     new_name := bang (in_name fs);
     new_email := bang (in_email fs);
     new_mobileNumber := bang (in_mobileNumber fs);
     new_password := bang (in_password fs);
     new_address :=
       {| street := bang (addressField in_street fs);
          city := bang (addressField in_city fs);
          state := bang (addressField in_state fs);
          country := bang (addressField in_country fs);
          postalCode := bang (addressField in_postalCode fs) |};
     new_isVerified := nullish (in_isVerified fs) false;
     new_role := orDefault (in_role fs) "user" |}.

Definition handleAddNew (st : State) : H :=
  if missingRequired (formState st) then
    Alert "Please fill in all required fields." Done
  else
    ClientCreate (newUserData (formState st)) (fun r =>
      match r with
      | Some newUser =>
          SetState (setUsers (fun prev => prev ++ [newUser]))
            (SetState (setShowAddForm false)
               (SetState (setFormState emptyInput) Done))
      | None => Alert "Failed to create user" Done
      end).

(** [onSubmit={editingUser ? handleUpdate : handleAddNew}] *)
Definition onSubmit (st : State) : H :=
  match editingUser st with
  | Some _ => handleUpdate st
  | None => handleAddNew st
  end.

(** The form is rendered when [showAddForm] holds. *)
Definition isFormOpen (st : State) : bool := showAddForm st.

End Users.

(** ** String methods used by the orders form

    A string is its sequence of code units; the model covers the code units
    below 256, which is where identifiers of documents live. *)

(** [WhiteSpace] and [LineTerminator] of the language, below 256: TAB, LF, VT,
    FF, CR, SP and NBSP. *)
Definition isWhiteSpace (c : ascii) : bool :=
  let n := nat_of_ascii c in
  ((n =? 9) || (n =? 10) || (n =? 11) || (n =? 12) || (n =? 13) ||
   (n =? 32) || (n =? 160))%nat.

Fixpoint trimStart (s : string) : string :=
  match s with
  | EmptyString => EmptyString
  | String c rest => if isWhiteSpace c then trimStart rest else s
  end.

Fixpoint trimEnd (s : string) : string :=
  match s with
  | EmptyString => EmptyString
  | String c rest =>
      match trimEnd rest with
      | EmptyString => if isWhiteSpace c then EmptyString else String c EmptyString
      | kept => String c kept
      end
  end.

(** [s.trim()] *)
Definition trim (s : string) : string := trimEnd (trimStart s).

(** [s.split(sep)] for a separator of one code unit. *)
Fixpoint split (sep : ascii) (s : string) : list string :=
  match s with
  | EmptyString => [EmptyString]
  | String c rest =>
      if Ascii.eqb c sep then EmptyString :: split sep rest
      else
        match split sep rest with
        | piece :: more => String c piece :: more
        | [] => [String c EmptyString]
        end
  end.

Definition comma : ascii := ","%char.

(** ** Orders screen ([AdminOrdersPage] in [src/app/user/page.tsx]) *)

Module Orders.

Record CartProduct : Type := mkCartProduct {
  product_id : string;
  product_name : string;
  product_imageUrl : string
}.

Record CartItem : Type := mkCartItem {
  quantity : Z;
  product : CartProduct
}.

(** [number] fields are only copied by the handlers, never computed with. *)
Record Order : Type := mkOrder {
  _id : string;
  fullName : string;
  email : string;
  phone : string;
  address : string;
  city : string;
  postalCode : string;
  country : string;
  paymentMethod : string;
  paymentStatus : string;
  amount : Z;
  createdAt : string;
  status : string;
  cartItems : list CartItem
}.

(** [OrderInput]: the form buffer; [cartItems] is the text of one input. *)
Record OrderInput : Type := mkOrderInput {
  in__id : option string;
  in_fullName : option string;
  in_email : option string;
  in_phone : option string;
  in_address : option string;
  in_city : option string;
  in_postalCode : option string;
  in_country : option string;
  in_paymentMethod : option string;
  in_paymentStatus : option string;
  in_amount : option Z;
  in_createdAt : option string;
  in_status : option string;
  in_cartItems : option string
}.

(** The object literals handed to [.set(..)] and to [client.create(..)]:
    the properties of the buffer, [cartItems] as an array of strings, and a
    type discriminator on create. *)
Record OrderPayload : Type := mkOrderPayload {
  pl__type : option string;
  pl__id : option string;
  pl_fullName : option string;
  pl_email : option string;
  pl_phone : option string;
  pl_address : option string;
  pl_city : option string;
  pl_postalCode : option string;
  pl_country : option string;
  pl_paymentMethod : option string;
  pl_paymentStatus : option string;
  pl_amount : option Z;
  pl_createdAt : option string;
  pl_status : option string;
  pl_cartItems : option (list string)
}.

Record State : Type := mkState {
  orders : list Order;
  loading : bool;
  editingOrder : option Order;
  showAddForm : bool;
  formState : OrderInput
}.

Definition setOrders (f : list Order -> list Order) (st : State) : State :=
  {| orders := f (orders st); loading := loading st;
     editingOrder := editingOrder st; showAddForm := showAddForm st;
     formState := formState st |}.

Definition setLoading (b : bool) (st : State) : State :=
  {| orders := orders st; loading := b;
     editingOrder := editingOrder st; showAddForm := showAddForm st;
     formState := formState st |}.

Definition setEditingOrder (o : option Order) (st : State) : State :=
  {| orders := orders st; loading := loading st;
     editingOrder := o; showAddForm := showAddForm st;
     formState := formState st |}.

Definition setShowAddForm (b : bool) (st : State) : State :=
  {| orders := orders st; loading := loading st;
     editingOrder := editingOrder st; showAddForm := b;
     formState := formState st |}.

Definition setFormState (fs : OrderInput) (st : State) : State :=
  {| orders := orders st; loading := loading st;
     editingOrder := editingOrder st; showAddForm := showAddForm st;
     formState := fs |}.

(** [{}] *)
Definition emptyInput : OrderInput :=
  {| in__id := None; in_fullName := None; in_email := None; in_phone := None;
     in_address := None; in_city := None; in_postalCode := None;
     in_country := None; in_paymentMethod := None; in_paymentStatus := None;
     in_amount := None; in_createdAt := None; in_status := None;
     in_cartItems := None |}.

Definition H := Handler State OrderPayload OrderPayload Order Order.
Definition W := World OrderPayload OrderPayload Order Order.

Definition fetchOrders : H :=
  SetState (setLoading true)
    (ClientFetch (fun r =>
       match r with
       | Some data =>
           SetState (setOrders (fun _ => data))
             (SetState (setLoading false) Done)
       | None => SetState (setLoading false) Done
       end)).

(** [{ status: "completed" }] *)
Definition completedPatch : OrderPayload :=
  {| pl__type := None; pl__id := None; pl_fullName := None; pl_email := None;
     pl_phone := None; pl_address := None; pl_city := None;
     pl_postalCode := None; pl_country := None; pl_paymentMethod := None;
     pl_paymentStatus := None; pl_amount := None; pl_createdAt := None;
     pl_status := Some "completed"; pl_cartItems := None |}.

(** [{ ...order, status: s }] *)
Definition withStatus (order : Order) (s : string) : Order :=
  {| _id := _id order; fullName := fullName order; email := email order;
     phone := phone order; address := address order; city := city order;
     postalCode := postalCode order; country := country order;
     paymentMethod := paymentMethod order;
     paymentStatus := paymentStatus order; amount := amount order;
     createdAt := createdAt order; status := s;
     cartItems := cartItems order |}.

Definition handleComplete (orderId : string) : H :=
  ClientPatch orderId completedPatch (fun r =>
    match r with
    | Some _ =>
        SetState
          (setOrders
             (map (fun order =>
                     if (_id order =? orderId)%string
                     then withStatus order "completed" else order)))
          Done
    | None => Alert "Failed to mark order as completed" Done
    end).

Definition handleDelete (orderId : string) : H :=
  Confirm "Are you sure you want to delete this order?" (fun yes =>
    if yes then
      ClientDelete orderId (fun ok =>
        if ok then
          SetState
            (setOrders (filter (fun order => negb (_id order =? orderId)%string)))
            Done
        else Alert "Failed to delete order" Done)
    else Done).

Definition handleEditClick (order : Order) : H :=
  SetState (setEditingOrder (Some order))
    (SetState
       (setFormState
          {| in__id := Some (_id order);
             in_fullName := Some (fullName order);
             in_email := Some (email order);
             in_phone := Some (phone order);
             in_address := Some (address order);
             in_city := Some (city order);
             in_postalCode := Some (postalCode order);
             in_country := Some (country order);
             in_paymentMethod := Some (paymentMethod order);
             in_paymentStatus := Some (paymentStatus order);
             in_amount := Some (amount order);
             in_createdAt := Some (createdAt order);
             in_status := Some (status order);
             in_cartItems :=
               Some (String.concat ", "
                       (map (fun item => product_id (product item))
                          (cartItems order))) |})
       (SetState (setShowAddForm false) Done)).

Definition handleCancel : H :=
  SetState (setEditingOrder None)
    (SetState (setShowAddForm false)
       (SetState (setFormState emptyInput) Done)).

(** The "Add New Order" button. *)
Definition clickAddNew : H :=
  SetState (setShowAddForm true)
    (SetState (setEditingOrder None)
       (SetState (setFormState emptyInput) Done)).

(** [formState.cartItems ? formState.cartItems.split(",").map((id) => id.trim()) : []] *)
Definition cartItemsArray (fs : OrderInput) : list string :=
  match in_cartItems fs with
  | Some text => if truthy text then map trim (split comma text) else []
  | None => []
  end.

(** [{ ...formState, cartItems: cartItemsArray }] *)
Definition updateData (fs : OrderInput) : OrderPayload :=
  {| pl__type := None;
     pl__id := in__id fs;
     pl_fullName := in_fullName fs;
     pl_email := in_email fs;
     pl_phone := in_phone fs;
     pl_address := in_address fs;
     pl_city := in_city fs;
     pl_postalCode := in_postalCode fs;
     pl_country := in_country fs;
     pl_paymentMethod := in_paymentMethod fs;
     pl_paymentStatus := in_paymentStatus fs;
     pl_amount := in_amount fs;
     pl_createdAt := in_createdAt fs;
     pl_status := in_status fs;
     pl_cartItems := Some (cartItemsArray fs) |}.

Definition handleUpdate (st : State) : H :=
  match editingOrder st with
  | Some eo =>
      if truthy (_id eo) then
        ClientPatch (_id eo) (updateData (formState st)) (fun r =>
          match r with
          | Some updated =>
              SetState
                (setOrders
                   (map (fun ord =>
                           if (_id ord =? _id eo)%string then updated else ord)))
                handleCancel
          | None => Alert "Failed to update order" Done
          end)
      else Done
  | None => Done
  end.

(** [{ _type: "order", ...formState, status: "pending", cartItems, createdAt }];
    [now] is [new Date().toISOString()]. *)
Definition createData (now : string) (fs : OrderInput) : OrderPayload :=
  {| pl__type := Some "order";
     pl__id := in__id fs;
     pl_fullName := in_fullName fs;
     pl_email := in_email fs;
     pl_phone := in_phone fs;
     pl_address := in_address fs;
     pl_city := in_city fs;
     pl_postalCode := in_postalCode fs;
     pl_country := in_country fs;
     pl_paymentMethod := in_paymentMethod fs;
     pl_paymentStatus := in_paymentStatus fs;
     pl_amount := in_amount fs;
     pl_createdAt := Some (orDefault (in_createdAt fs) now);
     pl_status := Some "pending";
     pl_cartItems := Some (cartItemsArray fs) |}.

Definition handleAddNew (now : string) (st : State) : H :=
  ClientCreate (createData now (formState st)) (fun r =>
    match r with
    | Some _ => andThen fetchOrders handleCancel
    | None => Alert "Failed to create order" Done
    end).

Definition isEditing (st : State) : bool :=
  match editingOrder st with Some _ => true | None => false end.

Definition isFormOpen (st : State) : bool := isEditing st || showAddForm st.

(** [onSubmit={isEditing ? handleUpdate : handleAddNew}] *)
Definition onSubmit (now : string) (st : State) : H :=
  if isEditing st then handleUpdate st else handleAddNew now st.

Definition pendingOrders (st : State) : list Order :=
  filter (fun order => (status order =? "pending")%string) (orders st).

Definition completedOrders (st : State) : list Order :=
  filter (fun order => (status order =? "completed")%string) (orders st).

End Orders.

(** ** Products screen ([AdminProductsPage] in [src/app/user/page.tsx]) *)

Module Products.

(** [{ asset: { _ref?: string; url: string } }] *)
Record Asset : Type := mkAsset {
  _ref : option string;
  url : string
}.

Record Image : Type := mkImage { asset : Asset }.

Record Product : Type := mkProduct {
  _id : string;
  name : string;
  image : option Image;
  price : string;
  description : string;
  discountPercentage : Z;
  isFeaturedProduct : bool;
  stockLevel : Z;
  category : string
}.

(** [ProductInput]: the form buffer; its image is an asset reference. *)
Record ProductInput : Type := mkProductInput {
  in__id : option string;
  in_name : option string;
  in_image : option string;
  in_price : option string;
  in_description : option string;
  in_discountPercentage : option Z;
  in_isFeaturedProduct : option bool;
  in_stockLevel : option Z;
  in_category : option string
}.

(** The object literal handed to [client.create(..)]. *)
Record ProductCreate : Type := mkProductCreate {
  new__type : string;
  new__id : option string;
  new_name : option string;
  new_image : option string;
  new_price : option string;
  new_description : option string;
  new_discountPercentage : option Z;
  new_isFeaturedProduct : option bool;
  new_stockLevel : option Z;
  new_category : string
}.

(** [SanityProduct]: a row of the list query. *)
Record SanityProduct : Type := mkSanityProduct {
  row__id : string;
  row_description : string;
  row_stockLevel : Z;
  row_discountPercentage : Z;
  row_isFeaturedProduct : bool;
  row_name : string;
  row_price : string;
  row_category : string;
  row_imageUrl : string
}.

(** The document a create or a patch resolves to, read through the
    non-null assertions of the handlers. *)
Record ProductDoc : Type := mkProductDoc {
  doc__id : string;
  doc_name : string;
  doc_price : string;
  doc_description : string;
  doc_discountPercentage : Z;
  doc_isFeaturedProduct : bool;
  doc_stockLevel : Z;
  doc_category : string
}.

Record State : Type := mkState {
  products : list Product;
  loading : bool;
  editingProduct : option Product;
  showAddForm : bool;
  formState : ProductInput;
  imagePreview : string
}.

Definition setProducts (f : list Product -> list Product) (st : State) : State :=
  {| products := f (products st); loading := loading st;
     editingProduct := editingProduct st; showAddForm := showAddForm st;
     formState := formState st; imagePreview := imagePreview st |}.

Definition setLoading (b : bool) (st : State) : State :=
  {| products := products st; loading := b;
     editingProduct := editingProduct st; showAddForm := showAddForm st;
     formState := formState st; imagePreview := imagePreview st |}.

Definition setEditingProduct (p : option Product) (st : State) : State :=
  {| products := products st; loading := loading st;
     editingProduct := p; showAddForm := showAddForm st;
     formState := formState st; imagePreview := imagePreview st |}.

Definition setShowAddForm (b : bool) (st : State) : State :=
  {| products := products st; loading := loading st;
     editingProduct := editingProduct st; showAddForm := b;
     formState := formState st; imagePreview := imagePreview st |}.

Definition setFormState (fs : ProductInput) (st : State) : State :=
  {| products := products st; loading := loading st;
     editingProduct := editingProduct st; showAddForm := showAddForm st;
     formState := fs; imagePreview := imagePreview st |}.

Definition setImagePreview (s : string) (st : State) : State :=
  {| products := products st; loading := loading st;
     editingProduct := editingProduct st; showAddForm := showAddForm st;
     formState := formState st; imagePreview := s |}.

(** [{}] *)
Definition emptyInput : ProductInput :=
  {| in__id := None; in_name := None; in_image := None; in_price := None;
     in_description := None; in_discountPercentage := None;
     in_isFeaturedProduct := None; in_stockLevel := None;
     in_category := None |}.

Definition H := Handler State ProductInput ProductCreate ProductDoc SanityProduct.
Definition W := World ProductInput ProductCreate ProductDoc SanityProduct.

Definition mapDoc (doc : SanityProduct) : Product :=
  {| _id := row__id doc;
     name := row_name doc;
     image := Some {| asset := {| _ref := None; url := row_imageUrl doc |} |};
     price := row_price doc;
     description := row_description doc;
     discountPercentage := row_discountPercentage doc;
     isFeaturedProduct := row_isFeaturedProduct doc;
     stockLevel := row_stockLevel doc;
     category := row_category doc |}.

Definition fetchProducts : H :=
  SetState (setLoading true)
    (ClientFetch (fun r =>
       match r with
       | Some data =>
           SetState (setProducts (fun _ => map mapDoc data))
             (SetState (setLoading false) Done)
       | None => SetState (setLoading false) Done
       end)).

(** "Delete a product and refresh the list." *)
Definition handleDelete (id : string) : H :=
  Confirm "Are you sure you want to delete this product?" (fun yes =>
    if yes then
      ClientDelete id (fun ok =>
        if ok then fetchProducts
        else Alert "Failed to delete product" Done)
    else Done).

(** [product.image?.asset?.url || ""] *)
Definition imageUrlOf (p : Product) : string :=
  match image p with
  | Some img => orDefault (Some (url (asset img))) ""
  | None => ""
  end.

Definition handleEditClick (product : Product) : H :=
  SetState (setEditingProduct (Some product))
    (SetState
       (setFormState
          {| in__id := Some (_id product);
             in_name := Some (name product);
             in_image := None;
             in_price := Some (price product);
             in_description := Some (description product);
             in_discountPercentage := Some (discountPercentage product);
             in_isFeaturedProduct := Some (isFeaturedProduct product);
             in_stockLevel := Some (stockLevel product);
             in_category := Some (category product) |})
       (SetState (setImagePreview (imageUrlOf product))
          (SetState (setShowAddForm false) Done))).

Definition handleCancel : H :=
  SetState (setEditingProduct None)
    (SetState (setShowAddForm false)
       (SetState (setFormState emptyInput)
          (SetState (setImagePreview "") Done))).

(** The "Add New Product" button. *)
Definition clickAddNew : H :=
  SetState (setShowAddForm true)
    (SetState (setEditingProduct None)
       (SetState
          (setFormState
             {| in__id := None; in_name := None; in_image := None;
                in_price := None; in_description := None;
                in_discountPercentage := None; in_isFeaturedProduct := None;
                in_stockLevel := None; in_category := Some "Chair" |})
          (SetState (setImagePreview "") Done))).

(** The local record built from a mutation's document and the preview. *)
Definition localOfDoc (doc : ProductDoc) (preview : string) : Product :=
  {| _id := doc__id doc;
     name := doc_name doc;
     image := Some {| asset := {| _ref := None;
                                  url := orDefault (Some preview) "" |} |};
     price := doc_price doc;
     description := doc_description doc;
     discountPercentage := doc_discountPercentage doc;
     isFeaturedProduct := doc_isFeaturedProduct doc;
     stockLevel := doc_stockLevel doc;
     category := doc_category doc |}.

(** [setProducts(products.map(..))] writes a list computed from the
    [products] of the render that created the handler. *)
Definition handleUpdate (st : State) : H :=
  match editingProduct st with
  | Some ep =>
      if truthy (_id ep) then
        ClientPatch (_id ep) (formState st) (fun r =>
          match r with
          | Some updated =>
              let updatedProduct := localOfDoc updated (imagePreview st) in
              SetState
                (setProducts (fun _ =>
                   map (fun prod =>
                          if (_id prod =? _id ep)%string
                          then updatedProduct else prod)
                     (products st)))
                handleCancel
          | None => Alert "Failed to update product" Done
          end)
      else Done
  | None => Done
  end.

(** [{ _type: "product", ...formState, category: formState.category || "Chair" }] *)
Definition createData (fs : ProductInput) : ProductCreate :=
  {| new__type := "product";
     new__id := in__id fs;
     new_name := in_name fs;
     new_image := in_image fs;
     new_price := in_price fs;
     new_description := in_description fs;
     new_discountPercentage := in_discountPercentage fs;
     new_isFeaturedProduct := in_isFeaturedProduct fs;
     new_stockLevel := in_stockLevel fs;
     new_category := orDefault (in_category fs) "Chair" |}.

Definition handleAddNew (st : State) : H :=
  ClientCreate (createData (formState st)) (fun r =>
    match r with
    | Some newProduct =>
        SetState
          (setProducts (fun prev =>
             prev ++ [localOfDoc newProduct (imagePreview st)]))
          handleCancel
    | None => Alert "Failed to create product" Done
    end).

Definition isEditing (st : State) : bool :=
  match editingProduct st with Some _ => true | None => false end.

Definition isFormOpen (st : State) : bool := isEditing st || showAddForm st.

(** [onSubmit={isEditing ? handleUpdate : handleAddNew}] *)
Definition onSubmit (st : State) : H :=
  if isEditing st then handleUpdate st else handleAddNew st.

(** A number as the text of a controlled input. *)
Definition numberText (n : Z) : string := NilZero.string_of_int (Z.to_int n).

(** The values shown by the inputs that carry the [required] attribute:
    [formState.name || ""], [formState.price || ""],
    [formState.stockLevel || 0] and [formState.category || "Chair"]. *)
Definition requiredValues (fs : ProductInput) : list string :=
  [ orDefault (in_name fs) "";
    orDefault (in_price fs) "";
    numberText (orDefaultZ (in_stockLevel fs) 0);
    orDefault (in_category fs) "Chair" ].

(** The bounds of the two number inputs: [min="0" max="100"] on the discount,
    which shows [formState.discountPercentage || 0], and [min="0"] on the
    stock level. *)
Definition withinBounds (fs : ProductInput) : bool :=
  let discount := orDefaultZ (in_discountPercentage fs) 0 in
  let stock := orDefaultZ (in_stockLevel fs) 0 in
  ((0 <=? discount) && (discount <=? 100) && (0 <=? stock))%Z.

(** Pressing the submit button: the browser dispatches the submit event of
    an open form only when no required input is empty and every number input
    is within its bounds. *)
Definition pressSubmit (st : State) : H :=
  if isFormOpen st
     && forallb truthy (requiredValues (formState st))
     && withinBounds (formState st)
  then onSubmit st else Done.

End Products.

(** ** Card text of the messages screen ([truncateText]) *)

(** [text.length > limit ? text.slice(0, limit) + "..." : text], for a limit
    that is a natural number; the cards call it with 20, which is also the
    default of the parameter. *)
Definition truncateText (text : string) (limit : nat) : string :=
  if (limit <? String.length text)%nat
  then (substring 0 limit text ++ "...")%string
  else text.

Definition truncateTextDefault (text : string) : string := truncateText text 20.

(** ** Login form of the dashboard ([AdminDashboard] in [src/app/page.tsx]) *)

(** [toLowerCase] on one code unit below 256: the capital letters of ASCII
    and of Latin-1 (all of 192..222 but the multiplication sign) move 32 up. *)
Definition lowerUnit (c : ascii) : ascii :=
  let n := nat_of_ascii c in
  if ((65 <=? n) && (n <=? 90)
      || (192 <=? n) && (n <=? 222) && negb (n =? 215))%nat
  then ascii_of_nat (n + 32)
  else c.

Fixpoint toLowerCase (s : string) : string :=
  match s with
  | EmptyString => EmptyString
  | String c rest => String (lowerUnit c) (toLowerCase rest)
  end.

Module Dashboard.

Record State : Type := mkState {
  email : string;
  authorized : bool;
  error : string
}.

Definition allowedEmail : string := "shaikhurwa61@gmail.com".

(** [onChange={(e) => setEmail(e.target.value)}] *)
Definition setEmail (value : string) (st : State) : State :=
  {| email := value; authorized := authorized st; error := error st |}.

Definition handleSubmit (st : State) : State :=
  if (toLowerCase (trim (email st)) =? allowedEmail)%string
  then {| email := email st; authorized := true; error := "" |}
  else {| email := email st; authorized := authorized st;
          error := "Unauthorized email. Please enter the correct Gmail address." |}.

Definition initial : State :=
  {| email := ""; authorized := false; error := "" |}.

End Dashboard.

(** ** Typing into the users form ([handleFormChange] of [AdminUsersPage]) *)

Module UsersForm.

(** What the handler reads of the change event: the target's [name], [value]
    and [type], whether the target is an [HTMLInputElement], and its
    [checked]. *)
Record ChangeEvent : Type := mkChange {
  target_name : string;
  target_value : string;
  target_type : string;
  target_isInput : bool;
  target_checked : bool
}.

(** The value assigned to a property: a string, a boolean or [undefined]. *)
Inductive Assigned : Type :=
| AString (s : string)
| ABool (b : bool)
| AUndefined.

(** [e.target instanceof HTMLInputElement && type === "checkbox"
     ? e.target.checked : undefined] *)
Definition checkedOf (e : ChangeEvent) : Assigned :=
  if target_isInput e && (target_type e =? "checkbox")%string
  then ABool (target_checked e)
  else AUndefined.

(** [type === "checkbox" ? checked : value] *)
Definition assignedOf (e : ChangeEvent) : Assigned :=
  if (target_type e =? "checkbox")%string then checkedOf e
  else AString (target_value e).

Definition emptyAddress : Users.AddressInput :=
  Users.mkAddressInput None None None None None.

(** [{ ...address, [field]: value }].  [None] when the key is not a property
    of the address of a [UserInput]: the record cannot hold it. *)
Definition setAddressProperty (field value : string)
    (a : Users.AddressInput) : option Users.AddressInput :=
  if (field =? "street")%string then
    Some (Users.mkAddressInput (Some value) (Users.in_city a) (Users.in_state a)
            (Users.in_country a) (Users.in_postalCode a))
  else if (field =? "city")%string then
    Some (Users.mkAddressInput (Users.in_street a) (Some value) (Users.in_state a)
            (Users.in_country a) (Users.in_postalCode a))
  else if (field =? "state")%string then
    Some (Users.mkAddressInput (Users.in_street a) (Users.in_city a) (Some value)
            (Users.in_country a) (Users.in_postalCode a))
  else if (field =? "country")%string then
    Some (Users.mkAddressInput (Users.in_street a) (Users.in_city a)
            (Users.in_state a) (Some value) (Users.in_postalCode a))
  else if (field =? "postalCode")%string then
    Some (Users.mkAddressInput (Users.in_street a) (Users.in_city a)
            (Users.in_state a) (Users.in_country a) (Some value))
  else None.

Definition asString (v : Assigned) : option (option string) :=
  match v with
  | AString s => Some (Some s)
  | AUndefined => Some None
  | ABool _ => None
  end.

Definition asBool (v : Assigned) : option (option bool) :=
  match v with
  | ABool b => Some (Some b)
  | AUndefined => Some None
  | AString _ => None
  end.

(** [{ ...prev, [key]: v }].  [None] when the key is not a property of
    [UserInput] or the value is not of the property's type: the record
    cannot hold the result. *)
Definition setProperty (key : string) (v : Assigned)
    (fs : Users.UserInput) : option Users.UserInput :=
  if (key =? "_id")%string then
    option_map (fun x => Users.mkUserInput x (Users.in_name fs) (Users.in_email fs)
                  (Users.in_mobileNumber fs) (Users.in_password fs)
                  (Users.in_address fs) (Users.in_isVerified fs) (Users.in_role fs))
      (asString v)
  else if (key =? "name")%string then
    option_map (fun x => Users.mkUserInput (Users.in__id fs) x (Users.in_email fs)
                  (Users.in_mobileNumber fs) (Users.in_password fs)
                  (Users.in_address fs) (Users.in_isVerified fs) (Users.in_role fs))
      (asString v)
  else if (key =? "email")%string then
    option_map (fun x => Users.mkUserInput (Users.in__id fs) (Users.in_name fs) x
                  (Users.in_mobileNumber fs) (Users.in_password fs)
                  (Users.in_address fs) (Users.in_isVerified fs) (Users.in_role fs))
      (asString v)
  else if (key =? "mobileNumber")%string then
    option_map (fun x => Users.mkUserInput (Users.in__id fs) (Users.in_name fs)
                  (Users.in_email fs) x (Users.in_password fs)
                  (Users.in_address fs) (Users.in_isVerified fs) (Users.in_role fs))
      (asString v)
  else if (key =? "password")%string then
    option_map (fun x => Users.mkUserInput (Users.in__id fs) (Users.in_name fs)
                  (Users.in_email fs) (Users.in_mobileNumber fs) x
                  (Users.in_address fs) (Users.in_isVerified fs) (Users.in_role fs))
      (asString v)
  else if (key =? "isVerified")%string then
    option_map (fun x => Users.mkUserInput (Users.in__id fs) (Users.in_name fs)
                  (Users.in_email fs) (Users.in_mobileNumber fs)
                  (Users.in_password fs) (Users.in_address fs) x (Users.in_role fs))
      (asBool v)
  else if (key =? "role")%string then
    option_map (fun x => Users.mkUserInput (Users.in__id fs) (Users.in_name fs)
                  (Users.in_email fs) (Users.in_mobileNumber fs)
                  (Users.in_password fs) (Users.in_address fs)
                  (Users.in_isVerified fs) x)
      (asString v)
  else None.

Definition period : ascii := "."%char.

(** The new form buffer ([setFormState((prev) => ..)] applied to [prev]). *)
Definition handleFormChange (e : ChangeEvent)
    (prev : Users.UserInput) : option Users.UserInput :=
  if String.prefix "address." (target_name e) then
    match nth_error (split period (target_name e)) 1 with
    | Some field =>
        option_map
          (fun a => Users.mkUserInput (Users.in__id prev) (Users.in_name prev)
                      (Users.in_email prev) (Users.in_mobileNumber prev)
                      (Users.in_password prev) (Some a)
                      (Users.in_isVerified prev) (Users.in_role prev))
          (setAddressProperty field (target_value e)
             (nullish (Users.in_address prev) emptyAddress))
    | None => None
    end
  else setProperty (target_name e) (assignedOf e) prev.

(** The text inputs and the select of the form, by their [name] attribute,
    and what each shows: [value={formState.name || ""}] and so on. *)
Definition textInputs : list string :=
  ["name"; "email"; "mobileNumber"; "password"; "role";
   "address.street"; "address.city"; "address.state"; "address.country";
   "address.postalCode"].

Definition shownValue (inputName : string) (fs : Users.UserInput) : string :=
  if (inputName =? "name")%string then orDefault (Users.in_name fs) ""
  else if (inputName =? "email")%string then orDefault (Users.in_email fs) ""
  else if (inputName =? "mobileNumber")%string
    then orDefault (Users.in_mobileNumber fs) ""
  else if (inputName =? "password")%string
    then orDefault (Users.in_password fs) ""
  else if (inputName =? "role")%string then orDefault (Users.in_role fs) "user"
  else if (inputName =? "address.street")%string
    then orDefault (Users.addressField Users.in_street fs) ""
  else if (inputName =? "address.city")%string
    then orDefault (Users.addressField Users.in_city fs) ""
  else if (inputName =? "address.state")%string
    then orDefault (Users.addressField Users.in_state fs) ""
  else if (inputName =? "address.country")%string
    then orDefault (Users.addressField Users.in_country fs) ""
  else if (inputName =? "address.postalCode")%string
    then orDefault (Users.addressField Users.in_postalCode fs) ""
  else "".

(** The inputs whose buffer property the guard of [Users.handleAddNew]
    tests: all of the above but the role. *)
Definition guardedInputs : list string :=
  ["name"; "email"; "mobileNumber"; "password";
   "address.street"; "address.city"; "address.state"; "address.country";
   "address.postalCode"].

(** [checked={formState.isVerified || false}] *)
Definition shownChecked (fs : Users.UserInput) : bool :=
  match Users.in_isVerified fs with
  | Some b => b
  | None => false
  end.

(** The change event of a text input or of the select. *)
Definition typed (inputName value : string) : ChangeEvent :=
  mkChange inputName value
    (if (inputName =? "role")%string then "select-one"
     else if (inputName =? "email")%string then "email" else "text")
    (negb (inputName =? "role")%string) false.

(** The change event of the "Is Verified" checkbox. *)
Definition ticked (checked : bool) : ChangeEvent :=
  mkChange "isVerified" "on" "checkbox" true checked.

(** A series of change events, one after the other. *)
Fixpoint changes (es : list ChangeEvent)
    (fs : Users.UserInput) : option Users.UserInput :=
  match es with
  | [] => Some fs
  | e :: rest =>
      match handleFormChange e fs with
      | Some fs' => changes rest fs'
      | None => None
      end
  end.

End UsersForm.

(** ** Image upload of the products form ([handleImageUpload]) *)

Module ProductsUpload.

(** What the handler reads of the chosen file and of the stored asset. *)
Record FileInfo : Type := mkFileInfo {
  file_type : string;
  file_name : string
}.

Record UploadedAsset : Type := mkUploadedAsset {
  asset__id : string;
  asset_url : string
}.

(** [{ ...prev, image: { asset: { _ref } } }] *)
Definition withImage (ref : string) (prev : Products.ProductInput) : Products.ProductInput :=
  Products.mkProductInput (Products.in__id prev) (Products.in_name prev)
    (Some ref) (Products.in_price prev) (Products.in_description prev)
    (Products.in_discountPercentage prev) (Products.in_isFeaturedProduct prev)
    (Products.in_stockLevel prev) (Products.in_category prev).

(** [file] is [e.target.files?.[0]]; [upload] is the answer of
    [client.assets.upload("image", file, ..)], [None] when it rejects.  The
    result is the new state and the alerts shown. *)
Definition handleImageUpload (file : option FileInfo)
    (upload : FileInfo -> option UploadedAsset)
    (st : Products.State) : Products.State * list string :=
  match file with
  | Some f =>
      match upload f with
      | Some uploadedAsset =>
          (Products.setImagePreview (asset_url uploadedAsset)
             (Products.setFormState
                (withImage (asset__id uploadedAsset) (Products.formState st)) st),
           [])
      | None => (st, ["Image upload failed"])
      end
  | None => (st, [])
  end.

End ProductsUpload.

(** ** What "comma-split" and "whitespace-trimmed" mean

    Stated on their own, without the recursion of [split] and [trim], to be
    compared with them. *)

Fixpoint hasChar (c : ascii) (s : string) : bool :=
  match s with
  | EmptyString => false
  | String d rest => Ascii.eqb d c || hasChar c rest
  end.

Fixpoint allWhite (s : string) : bool :=
  match s with
  | EmptyString => true
  | String c rest => isWhiteSpace c && allWhite rest
  end.

Definition startsWhite (s : string) : bool :=
  match s with
  | EmptyString => false
  | String c _ => isWhiteSpace c
  end.

Fixpoint endsWhite (s : string) : bool :=
  match s with
  | EmptyString => false
  | String c EmptyString => isWhiteSpace c
  | String _ rest => endsWhite rest
  end.

(** [pieces] are the stretches of [text] between its commas. *)
Definition isCommaSplitOf (text : string) (pieces : list string) : Prop :=
  pieces <> [] /\
  String.concat "," pieces = text /\
  Forall (fun piece => hasChar comma piece = false) pieces.

(** [item] is [piece] without the white space around it. *)
Definition isTrimOf (piece item : string) : Prop :=
  exists before after,
    piece = (before ++ item ++ after)%string /\
    allWhite before = true /\
    allWhite after = true /\
    startsWhite item = false /\
    endsWhite item = false.

(** An id that survives the form: not empty, no comma, no white space at
    either end. *)
Definition cleanId (id : string) : bool :=
  truthy id && negb (hasChar comma id) && negb (startsWhite id)
  && negb (endsWhite id).

(** How often a code unit occurs in a string. *)
Fixpoint countChar (c : ascii) (s : string) : nat :=
  match s with
  | EmptyString => 0
  | String d rest => (if Ascii.eqb d c then 1 else 0) + countChar c rest
  end.

(** [entered] is the allowed address in some mix of capitals and small
    letters, with white space before and after it at most. *)
Definition isAllowedAddress (entered : string) : Prop :=
  exists before core after,
    entered = (before ++ core ++ after)%string /\
    allWhite before = true /\
    allWhite after = true /\
    toLowerCase core = Dashboard.allowedEmail.

(** ** Sample data

    Small concrete screens on which the statements below are exercised. *)

Module Sample.

Definition world {PatchP CreateP Doc Row : Type}
    (yes ok : bool) (patched created : option Doc)
    (fetched : option (list Row)) : World PatchP CreateP Doc Row :=
  mkWorld (fun _ => yes) (fun _ => ok) (fun _ _ => patched)
    (fun _ => created) fetched.

Definition msgOld : Messages.Message :=
  Messages.mkMessage "m1" "Ada" "ada@example.org" "Where is my chair?"
    "2024-01-01T00:00:00Z" true.

Definition msgNew : Messages.Message :=
  Messages.mkMessage "m2" "Bob" "bob@example.org" "Sofa arrived, thanks."
    "2024-06-01T00:00:00Z" false.

(** The rows in the order the query asks for: pinned first. *)
Definition rows : list Messages.Message := [msgOld; msgNew].

Definition loadWorld : Messages.W := world true true None None (Some rows).

(** The store answers the patch of [m2] with the document, now pinned. *)
Definition pinWorld : Messages.W :=
  world true true (Some (Messages.withPinned msgNew true)) None None.

Definition loaded : Messages.State :=
  fst (run Messages.fetchMessages loadWorld Messages.initial).

Definition chair : Products.Product :=
  Products.mkProduct "p1" "Oak chair"
    (Some (Products.mkImage (Products.mkAsset None "https://cdn.example.org/chair.png")))
    "120" "Solid oak" 0 false 4 "Chair".

Definition chairRow : Products.SanityProduct :=
  Products.mkSanityProduct "p1" "Solid oak" 4 0 false "Oak chair" "120" "Chair"
    "https://cdn.example.org/chair.png".

Definition shop : Products.State :=
  Products.mkState [chair] false None false Products.emptyInput "".

(** The delete is accepted; the list query that follows is rejected. *)
Definition deletedThenOffline : Products.W := world true true None None None.

(** The delete is accepted; the list query that follows is answered from a
    replica that has not seen it yet. *)
Definition deletedThenStale : Products.W :=
  world true true None None (Some [chairRow]).

Definition inbox : Messages.State := Messages.mkState rows false None.

Definition deleteAccepted : Messages.W := world true true None None None.

Definition ada : Users.User :=
  Users.mkUser "u1" "Ada" "ada@example.org" "555-0100" "correct horse"
    (Users.mkAddress "1 Main St" "Springfield" "IL" "US" "62701") true "admin".

(** The document the store returns after the name was edited. *)
Definition adaRenamed : Users.User :=
  Users.mkUser "u1" "Ada L." "ada@example.org" "555-0100" "correct horse"
    (Users.mkAddress "1 Main St" "Springfield" "IL" "US" "62701") true "admin".

Definition bob : Users.User :=
  Users.mkUser "u2" "Bob" "bob@example.org" "555-0102" "battery staple"
    (Users.mkAddress "9 Oak Ave" "Shelbyville" "IL" "US" "62565") false "user".

(** The users screen after a click on "Edit" of [ada]. *)
Definition editingAda : Users.State :=
  fst (run (Users.handleEditClick ada) (world true true None None None)
         (Users.mkState [ada] false None false Users.emptyInput false)).

Definition renameAccepted : Users.W :=
  world true true (Some adaRenamed) None None.

(** The add form of the users screen, filled in but for the verified box and
    the role. *)
Definition addingBob : Users.State :=
  Users.mkState [ada] false None true
    (Users.mkUserInput None (Some "Bob") (Some "bob@example.org")
       (Some "555-0102") (Some "battery staple")
       (Some (Users.mkAddressInput (Some "9 Oak Ave") (Some "Shelbyville")
                (Some "IL") (Some "US") (Some "62565")))
       None None)
    false.

Definition bobCreated : Users.W := world true true None (Some bob) None.

Definition order1 : Orders.Order :=
  Orders.mkOrder "o1" "Cy" "cy@example.org" "555-0101" "2 Elm St" "Shelbyville"
    "62565" "US" "creditCard" "paid" 250 "2024-05-05T10:00:00Z" "pending"
    [Orders.mkCartItem 2
       (Orders.mkCartProduct "p1" "Oak chair" "https://cdn.example.org/chair.png");
     Orders.mkCartItem 1
       (Orders.mkCartProduct "p7" "Sofa" "https://cdn.example.org/sofa.png")].

Definition order9 : Orders.Order :=
  Orders.mkOrder "o9" "Di" "di@example.org" "555-0109" "3 Fir Rd" "Ogdenville"
    "62000" "US" "cash" "cash on delivery" 80 "2024-07-01T09:00:00Z" "pending" [].

Definition ordersScreen : Orders.State :=
  Orders.mkState [order1] false None false Orders.emptyInput.

(** The add form of the orders screen, opened on an empty list. *)
Definition addingOrder : Orders.State :=
  fst (run Orders.clickAddNew (world true true None None None)
         (Orders.mkState [] false None false Orders.emptyInput)).

(** The create is accepted; the list query that follows is rejected. *)
Definition createdThenOffline : Orders.W :=
  world true true None (Some order9) None.

(** A store that applies the field set of a patch to the stored document and
    answers with the result.  The scalar fields named by the payload replace
    those of the document; the line items of the answer are left aside, an
    [Order] cannot hold the id strings of the payload. *)
Definition applyFields (p : Orders.OrderPayload) (doc : Orders.Order) : Orders.Order :=
  Orders.mkOrder
    (Orders._id doc)
    (nullish (Orders.pl_fullName p) (Orders.fullName doc))
    (nullish (Orders.pl_email p) (Orders.email doc))
    (nullish (Orders.pl_phone p) (Orders.phone doc))
    (nullish (Orders.pl_address p) (Orders.address doc))
    (nullish (Orders.pl_city p) (Orders.city doc))
    (nullish (Orders.pl_postalCode p) (Orders.postalCode doc))
    (nullish (Orders.pl_country p) (Orders.country doc))
    (nullish (Orders.pl_paymentMethod p) (Orders.paymentMethod doc))
    (nullish (Orders.pl_paymentStatus p) (Orders.paymentStatus doc))
    (nullish (Orders.pl_amount p) (Orders.amount doc))
    (nullish (Orders.pl_createdAt p) (Orders.createdAt doc))
    (nullish (Orders.pl_status p) (Orders.status doc))
    (Orders.cartItems doc).

(** The store holds [stored] and accepts every patch. *)
Definition storeOf (stored : Orders.Order) : Orders.W :=
  mkWorld (fun _ => true) (fun _ => true)
    (fun _ p => Some (applyFields p stored)) (fun _ => None) None.

(** The add form of the products screen after "Add New Product", with a name
    and a price typed in and the stock level left alone. *)
Definition addingDesk : Products.State :=
  Products.mkState [chair] false None true
    (Products.mkProductInput None (Some "Desk") None (Some "10") None None None
       None (Some "Chair"))
    "".

(** An order buffer whose cart text ends with a comma. *)
Definition trailingComma : Orders.OrderInput :=
  Orders.mkOrderInput None None None None None None None None None None
    None None None (Some "p1, p7,").

(** The add form of the users screen right after "Add New User". *)
Definition addingNobody : Users.State :=
  fst (run Users.clickAddNew (world true true None None None)
         (Users.mkState [ada] false None false Users.emptyInput false)).

Definition chairPhoto : ProductsUpload.FileInfo :=
  ProductsUpload.mkFileInfo "image/png" "chair.png".

Definition storedPhoto : ProductsUpload.UploadedAsset :=
  ProductsUpload.mkUploadedAsset "image-abc123-png"
    "https://cdn.example.org/abc123.png".

(** The document the store returns for the edited chair. *)
Definition chairRepriced : Products.ProductDoc :=
  Products.mkProductDoc "p1" "Oak chair" "99" "Solid oak" 0 false 4 "Chair".

End Sample.

(** * Properties *)

(** ** Request trees *)

Section HandlerFacts.

Variables St PatchP CreateP Doc Row : Type.

Lemma run_andThen (h k : Handler St PatchP CreateP Doc Row)
    (w : World PatchP CreateP Doc Row) (st : St) :
  run (andThen h k) w st =
  (fst (run k w (fst (run h w st))),
   snd (run h w st) ++ snd (run k w (fst (run h w st)))).
Proof.
  revert st.
  induction h as [|f h' IH|m c IH|m h' IH|id c IH|id p c IH|p c IH|c IH];
    intros st; cbn [andThen run].
  - cbn. destruct (run k w st); reflexivity.
  - apply IH.
  - rewrite IH. destruct (run (c _) w st); reflexivity.
  - rewrite IH. destruct (run h' w st); reflexivity.
  - rewrite IH. destruct (run (c _) w st); reflexivity.
  - rewrite IH. destruct (run (c _) w st); reflexivity.
  - rewrite IH. destruct (run (c _) w st); reflexivity.
  - rewrite IH. destruct (run (c _) w st); reflexivity.
Qed.

End HandlerFacts.

(** ** Lists of records *)

Section ListFacts.

Variable A : Type.

Lemma nth_error_map_if (p : A -> bool) (b : A) (l : list A) (i : nat) (a : A) :
  nth_error l i = Some a ->
  nth_error (map (fun x => if p x then b else x) l) i =
  Some (if p a then b else a).
Proof.
  intros Hi. rewrite nth_error_map, Hi. reflexivity.
Qed.

Lemma filter_negb_excludes (p : A -> bool) (l : list A) (a : A) :
  In a (filter (fun x => negb (p x)) l) -> p a = false.
Proof.
  intros Hin. apply filter_In in Hin. destruct Hin as [_ Hn].
  now apply negb_true_iff in Hn.
Qed.

Lemma filter_negb_keeps (p : A -> bool) (l : list A) (a : A) :
  In a l -> p a = false -> In a (filter (fun x => negb (p x)) l).
Proof.
  intros Hin Hp. apply filter_In. split; [exact Hin|]. now rewrite Hp.
Qed.

Lemma count_app_one (p : A -> bool) (l : list A) (a : A) :
  (forall x, In x l -> p x = false) ->
  p a = true ->
  List.length (filter p (l ++ [a])) = 1.
Proof.
  intros Hnone Ha. rewrite filter_app. cbn. rewrite Ha.
  rewrite length_app. cbn.
  assert (Hnil : filter p l = []).
  { clear Ha. induction l as [|x l IH]; [reflexivity|]. cbn.
    rewrite (Hnone x (or_introl eq_refl)). apply IH.
    intros y Hy. apply Hnone. now right. }
  rewrite Hnil. reflexivity.
Qed.

Lemma filter_swap (p q : A -> bool) (l : list A) :
  filter p (filter q l) = filter q (filter p l).
Proof.
  induction l as [|x l IH]; [reflexivity|]. cbn.
  destruct (q x) eqn:Eq, (p x) eqn:Ep; cbn; rewrite ?Eq, ?Ep, IH;
    reflexivity.
Qed.

End ListFacts.

(** ** Messages screen *)

Section MessagesProps.

Import Messages.

Lemma messages_delete_run (w : W) (st : State) (id : string) :
  fst (run (handleDelete id) w st) =
  if confirmAnswer w "Are you sure you want to delete this message?"
     && deleteResult w id
  then setMessages (filter (fun msg => negb (_id msg =? id)%string)) st
  else st.
Proof.
  unfold handleDelete. cbn.
  destruct (confirmAnswer w _); cbn; [|reflexivity].
  destruct (deleteResult w id); reflexivity.
Qed.

(** The rendered list is always a block of pinned cards followed by a block
    of unpinned cards, whatever the handlers did before. *)
Lemma rendered_pinned_first (st : State) :
  exists top bottom,
    rendered st = top ++ bottom /\
    Forall (fun msg => pinned msg = true) top /\
    Forall (fun msg => pinned msg = false) bottom.
Proof.
  unfold rendered. destruct (loading st).
  { exists [], []. repeat split; constructor. }
  exists (pinnedMessages st), (unpinnedMessages st).
  split; [reflexivity|]. split; apply Forall_forall; intros m Hm;
    apply filter_In in Hm; destruct Hm as [_ Hm].
  - exact Hm.
  - now apply negb_true_iff in Hm.
Qed.

Lemma newestFirst_filter (p : Message -> bool) (l : list Message) :
  newestFirst l = true -> newestFirst (filter p l) = true.
Proof.
  induction l as [|a l IH]; [reflexivity|].
  cbn [newestFirst filter]. intros H.
  apply andb_true_iff in H. destruct H as [Ha Hl].
  destruct (p a); [|now apply IH].
  cbn [newestFirst]. apply andb_true_iff. split; [|now apply IH].
  apply forallb_forall. intros x Hx. apply filter_In in Hx.
  rewrite forallb_forall in Ha. apply Ha. tauto.
Qed.

Lemma queryOrdered_group (b : bool) (l : list Message) :
  queryOrdered l = true ->
  newestFirst (filter (fun msg => Bool.eqb (pinned msg) b) l) = true.
Proof.
  induction l as [|a l IH]; [reflexivity|].
  cbn [queryOrdered filter]. intros H.
  apply andb_true_iff in H. destruct H as [Ha Hl].
  destruct (Bool.eqb (pinned a) b) eqn:Eab; [|now apply IH].
  cbn [newestFirst]. apply andb_true_iff. split; [|now apply IH].
  apply forallb_forall. intros x Hx. apply filter_In in Hx.
  destruct Hx as [Hx Exb].
  rewrite forallb_forall in Ha. specialize (Ha x Hx).
  apply eqb_prop in Eab. apply eqb_prop in Exb.
  unfold queryBefore in Ha. rewrite Eab, Exb in Ha.
  destruct b; exact Ha.
Qed.

(** After a load whose rows come in the order the query asks for, each of
    the two sections is newest-first. *)
Lemma load_newest_first (w : W) (st : State) (data : list Message) :
  fetchResult w = Some data ->
  queryOrdered data = true ->
  let st' := fst (run fetchMessages w st) in
  newestFirst (pinnedMessages st') = true /\
  newestFirst (unpinnedMessages st') = true.
Proof.
  intros Hf Hq. unfold fetchMessages. cbn. rewrite Hf. cbn.
  unfold pinnedMessages, unpinnedMessages. cbn. split.
  - rewrite (filter_ext _ (fun msg => Bool.eqb (pinned msg) true)).
    + now apply queryOrdered_group.
    + intros m. now destruct (pinned m).
  - rewrite (filter_ext _ (fun msg => Bool.eqb (pinned msg) false)).
    + now apply queryOrdered_group.
    + intros m. now destruct (pinned m).
Qed.

(** A delete keeps both sections newest-first. *)
Lemma delete_keeps_newest_first (w : W) (st : State) (id : string) :
  newestFirst (pinnedMessages st) = true ->
  newestFirst (unpinnedMessages st) = true ->
  let st' := fst (run (handleDelete id) w st) in
  newestFirst (pinnedMessages st') = true /\
  newestFirst (unpinnedMessages st') = true.
Proof.
  intros Hp Hu. cbv zeta. rewrite messages_delete_run.
  destruct (_ && _); [|now split].
  unfold pinnedMessages, unpinnedMessages in *. cbn.
  split; rewrite filter_swap; now apply newestFirst_filter.
Qed.

End MessagesProps.

Section MessagesClaims.

Import Messages.

(** C7. A successful [togglePin] keeps the length and the positions of the
    list; the messages whose id is the toggled one keep their id, name, email,
    body text and creation timestamp and take the pinned flag of the document
    returned by the patch; every other message is left as it was, and so are
    the other cells of the screen. *)
Theorem togglePin_changes_only_pinned
    (w : W) (st : State) (id : string) (currentPinned : bool)
    (updated : Message) :
  patchResult w id {| set_pinned := negb currentPinned |} = Some updated ->
  let st' := fst (run (togglePin id currentPinned) w st) in
  List.length (messages st') = List.length (messages st) /\
  loading st' = loading st /\
  selectedMessage st' = selectedMessage st /\
  forall i msg,
    nth_error (messages st) i = Some msg ->
    exists msg',
      nth_error (messages st') i = Some msg' /\
      _id msg' = _id msg /\
      name msg' = name msg /\
      email msg' = email msg /\
      message msg' = message msg /\
      createdAt msg' = createdAt msg /\
      (if (_id msg =? id)%string
       then pinned msg' = pinned updated
       else msg' = msg).
Proof.
  intros Hok. unfold togglePin. cbn. rewrite Hok. cbn.
  split; [apply length_map|]. do 2 (split; [reflexivity|]).
  intros i msg Hi. rewrite nth_error_map, Hi. cbn.
  destruct (_id msg =? id)%string.
  - eexists. split; [reflexivity|]. cbn. repeat split; reflexivity.
  - exists msg. repeat split; reflexivity.
Qed.

Lemma togglePin_changes_only_pinned_witness :
  patchResult Sample.pinWorld "m2" {| set_pinned := negb false |}
    = Some (withPinned Sample.msgNew true) /\
  List.length
    (messages (fst (run (togglePin "m2" false) Sample.pinWorld Sample.loaded)))
    = List.length (messages Sample.loaded).
Proof.
  split; [reflexivity|].
  apply (togglePin_changes_only_pinned Sample.pinWorld Sample.loaded "m2" false
           (withPinned Sample.msgNew true)).
  reflexivity.
Defined.

(** C2, evaluated.  The rows arrive in query order, the older one pinned.
    Pinning the newer one leaves it where it stood in the list, so the pinned
    section shows the message of January above the message of June. *)
Theorem pin_leaves_older_message_on_top :
  let st := fst (run (togglePin "m2" false) Sample.pinWorld Sample.loaded) in
  queryOrdered Sample.rows = true /\
  messages Sample.loaded = Sample.rows /\
  newestFirst (pinnedMessages Sample.loaded) = true /\
  newestFirst (unpinnedMessages Sample.loaded) = true /\
  map _id (rendered st) = ["m1"; "m2"] /\
  map pinned (rendered st) = [true; true] /\
  map createdAt (rendered st)
    = ["2024-01-01T00:00:00Z"; "2024-06-01T00:00:00Z"] /\
  newestFirst (pinnedMessages st) = false /\
  queryOrdered (messages st) = false.
Proof.
  cbv zeta. repeat split; vm_compute; reflexivity.
Qed.

End MessagesClaims.

(** ** Deleting, per screen *)

Lemma messages_delete_ok (w : Messages.W) (st : Messages.State) (id : string) :
  confirmAnswer w "Are you sure you want to delete this message?" = true ->
  deleteResult w id = true ->
  Messages.messages (fst (run (Messages.handleDelete id) w st))
  = filter (fun msg => negb (Messages._id msg =? id)%string) (Messages.messages st).
Proof.
  intros Hc Hd. rewrite messages_delete_run, Hc, Hd. reflexivity.
Qed.

Lemma messages_delete_failed (w : Messages.W) (st : Messages.State) (id : string) :
  deleteResult w id = false ->
  fst (run (Messages.handleDelete id) w st) = st.
Proof.
  intros Hd. rewrite messages_delete_run, Hd, andb_false_r. reflexivity.
Qed.

Lemma users_delete_ok (w : Users.W) (st : Users.State) (id : string) :
  confirmAnswer w "Are you sure you want to delete this user?" = true ->
  deleteResult w id = true ->
  Users.users (fst (run (Users.handleDelete id) w st))
  = filter (fun user => negb (Users._id user =? id)%string) (Users.users st).
Proof.
  intros Hc Hd. unfold Users.handleDelete. cbn. rewrite Hc. cbn.
  rewrite Hd. reflexivity.
Qed.

Lemma users_delete_failed (w : Users.W) (st : Users.State) (id : string) :
  deleteResult w id = false ->
  fst (run (Users.handleDelete id) w st) = st.
Proof.
  intros Hd. unfold Users.handleDelete. cbn.
  destruct (confirmAnswer w _); cbn; [|reflexivity].
  rewrite Hd. reflexivity.
Qed.

Lemma orders_delete_ok (w : Orders.W) (st : Orders.State) (id : string) :
  confirmAnswer w "Are you sure you want to delete this order?" = true ->
  deleteResult w id = true ->
  Orders.orders (fst (run (Orders.handleDelete id) w st))
  = filter (fun order => negb (Orders._id order =? id)%string) (Orders.orders st).
Proof.
  intros Hc Hd. unfold Orders.handleDelete. cbn. rewrite Hc. cbn.
  rewrite Hd. reflexivity.
Qed.

Lemma orders_delete_failed (w : Orders.W) (st : Orders.State) (id : string) :
  deleteResult w id = false ->
  fst (run (Orders.handleDelete id) w st) = st.
Proof.
  intros Hd. unfold Orders.handleDelete. cbn.
  destruct (confirmAnswer w _); cbn; [|reflexivity].
  rewrite Hd. reflexivity.
Qed.

Lemma products_delete_ok (w : Products.W) (st : Products.State) (id : string) :
  confirmAnswer w "Are you sure you want to delete this product?" = true ->
  deleteResult w id = true ->
  Products.products (fst (run (Products.handleDelete id) w st))
  = match fetchResult w with
    | Some rows => map Products.mapDoc rows
    | None => Products.products st
    end.
Proof.
  intros Hc Hd. unfold Products.handleDelete. cbn. rewrite Hc. cbn.
  rewrite Hd. cbn. destruct (fetchResult w); reflexivity.
Qed.

Lemma products_delete_failed (w : Products.W) (st : Products.State) (id : string) :
  deleteResult w id = false ->
  fst (run (Products.handleDelete id) w st) = st.
Proof.
  intros Hd. unfold Products.handleDelete. cbn.
  destruct (confirmAnswer w _); cbn; [|reflexivity].
  rewrite Hd. reflexivity.
Qed.

Lemma eqb_false_neq (a b : string) : (a =? b)%string = false -> a <> b.
Proof. intros H. now apply String.eqb_neq. Qed.

(** ** C3: the local list after a confirmed delete *)

(** C3 as stated fails on the products screen: the backend accepts the delete
    of [p1], and the record with id [p1] is still in the local list afterward,
    both when the refetch is rejected and when it is answered with a stale
    row. *)
Lemma product_delete_success_record_still_listed :
  deleteResult Sample.deletedThenOffline "p1" = true /\
  In Sample.chair
    (Products.products
       (fst (run (Products.handleDelete "p1") Sample.deletedThenOffline
               Sample.shop))) /\
  Products._id Sample.chair = "p1" /\
  deleteResult Sample.deletedThenStale "p1" = true /\
  map Products._id
    (Products.products
       (fst (run (Products.handleDelete "p1") Sample.deletedThenStale
               Sample.shop))) = ["p1"].
Proof.
  repeat split; try reflexivity. cbn. left. reflexivity.
Qed.

(** C3, amended.  On the messages, users and orders screens a confirmed delete
    that the backend accepts leaves no record with that id in the local list
    and keeps every record with another id; on the products screen it is
    followed by a refetch, and the local list becomes the mapped rows of that
    query, or stays as it was when the query fails.  On every screen a delete
    that the backend rejects leaves the whole screen state as it was. *)
Theorem delete_outcome :
  (forall (w : Messages.W) (st : Messages.State) (id : string),
      let st' := fst (run (Messages.handleDelete id) w st) in
      (confirmAnswer w "Are you sure you want to delete this message?" = true ->
       deleteResult w id = true ->
       (forall m, In m (Messages.messages st') -> Messages._id m <> id) /\
       (forall m, In m (Messages.messages st) -> Messages._id m <> id ->
                  In m (Messages.messages st'))) /\
      (deleteResult w id = false -> st' = st)) /\
  (forall (w : Users.W) (st : Users.State) (id : string),
      let st' := fst (run (Users.handleDelete id) w st) in
      (confirmAnswer w "Are you sure you want to delete this user?" = true ->
       deleteResult w id = true ->
       (forall u, In u (Users.users st') -> Users._id u <> id) /\
       (forall u, In u (Users.users st) -> Users._id u <> id ->
                  In u (Users.users st'))) /\
      (deleteResult w id = false -> st' = st)) /\
  (forall (w : Orders.W) (st : Orders.State) (id : string),
      let st' := fst (run (Orders.handleDelete id) w st) in
      (confirmAnswer w "Are you sure you want to delete this order?" = true ->
       deleteResult w id = true ->
       (forall o, In o (Orders.orders st') -> Orders._id o <> id) /\
       (forall o, In o (Orders.orders st) -> Orders._id o <> id ->
                  In o (Orders.orders st'))) /\
      (deleteResult w id = false -> st' = st)) /\
  (forall (w : Products.W) (st : Products.State) (id : string),
      let st' := fst (run (Products.handleDelete id) w st) in
      (confirmAnswer w "Are you sure you want to delete this product?" = true ->
       deleteResult w id = true ->
       Products.products st'
       = match fetchResult w with
         | Some rows => map Products.mapDoc rows
         | None => Products.products st
         end) /\
      (deleteResult w id = false -> st' = st)).
Proof.
  repeat apply conj.
  - intros w st id st'. subst st'. split.
    + intros Hc Hd. rewrite (messages_delete_ok w st id Hc Hd). split.
      * intros m Hm.
        apply (filter_negb_excludes _ (fun x => (Messages._id x =? id)%string)) in Hm.
        now apply eqb_false_neq.
      * intros m Hm Hne.
        apply (filter_negb_keeps _ (fun x => (Messages._id x =? id)%string));
          [exact Hm|]. now apply String.eqb_neq.
    + apply messages_delete_failed.
  - intros w st id st'. subst st'. split.
    + intros Hc Hd. rewrite (users_delete_ok w st id Hc Hd). split.
      * intros m Hm.
        apply (filter_negb_excludes _ (fun x => (Users._id x =? id)%string)) in Hm.
        now apply eqb_false_neq.
      * intros m Hm Hne.
        apply (filter_negb_keeps _ (fun x => (Users._id x =? id)%string));
          [exact Hm|]. now apply String.eqb_neq.
    + apply users_delete_failed.
  - intros w st id st'. subst st'. split.
    + intros Hc Hd. rewrite (orders_delete_ok w st id Hc Hd). split.
      * intros m Hm.
        apply (filter_negb_excludes _ (fun x => (Orders._id x =? id)%string)) in Hm.
        now apply eqb_false_neq.
      * intros m Hm Hne.
        apply (filter_negb_keeps _ (fun x => (Orders._id x =? id)%string));
          [exact Hm|]. now apply String.eqb_neq.
    + apply orders_delete_failed.
  - intros w st id st'. subst st'. split.
    + apply products_delete_ok.
    + apply products_delete_failed.
Qed.

Lemma delete_outcome_witness :
  confirmAnswer Sample.deleteAccepted
    "Are you sure you want to delete this message?" = true /\
  deleteResult Sample.deleteAccepted "m1" = true /\
  (forall m,
      In m (Messages.messages
              (fst (run (Messages.handleDelete "m1") Sample.deleteAccepted
                      Sample.inbox))) ->
      Messages._id m <> "m1").
Proof.
  split; [reflexivity|]. split; [reflexivity|].
  apply (proj1 (proj1 delete_outcome Sample.deleteAccepted Sample.inbox "m1"));
    reflexivity.
Defined.

(** ** Submitting the form, per screen *)

Lemma users_update_fire (w : Users.W) (st : Users.State) (eu : Users.User) :
  Users.editingUser st = Some eu ->
  truthy (Users._id eu) = true ->
  fire Users.handleUpdate w st =
  match patchResult w (Users._id eu) (Users.formState st) with
  | Some updated =>
      (Users.mkState
         (map (fun u => if (Users._id u =? Users._id eu)%string then updated else u)
            (Users.users st))
         (Users.loading st) None false Users.emptyInput (Users.showPassword st),
       [EvPatch (Users._id eu) (Users.formState st) (Some updated)])
  | None =>
      (st, [EvPatch (Users._id eu) (Users.formState st) None;
            EvAlert "Failed to update user"])
  end.
Proof.
  intros He Hid. unfold fire, Users.handleUpdate. rewrite He, Hid. cbn.
  destruct (patchResult w _ _); reflexivity.
Qed.

Lemma users_update_idle (w : Users.W) (st : Users.State) :
  (Users.editingUser st = None \/
   exists eu, Users.editingUser st = Some eu /\ truthy (Users._id eu) = false) ->
  fire Users.handleUpdate w st = (st, []).
Proof.
  unfold fire, Users.handleUpdate.
  intros [He|[eu [He Hid]]]; rewrite He; [|rewrite Hid]; reflexivity.
Qed.

Lemma users_addNew_fire (w : Users.W) (st : Users.State) :
  fire Users.handleAddNew w st =
  if Users.missingRequired (Users.formState st) then
    (st, [EvAlert "Please fill in all required fields."])
  else
    let doc := Users.newUserData (Users.formState st) in
    match createResult w doc with
    | Some newUser =>
        (Users.mkState (Users.users st ++ [newUser]) (Users.loading st)
           (Users.editingUser st) false Users.emptyInput (Users.showPassword st),
         [EvCreate doc (Some newUser)])
    | None => (st, [EvCreate doc None; EvAlert "Failed to create user"])
    end.
Proof.
  unfold fire, Users.handleAddNew.
  destruct (Users.missingRequired _); [reflexivity|]. cbn.
  destruct (createResult w _); reflexivity.
Qed.

Lemma orders_update_fire (w : Orders.W) (st : Orders.State) (eo : Orders.Order) :
  Orders.editingOrder st = Some eo ->
  truthy (Orders._id eo) = true ->
  fire Orders.handleUpdate w st =
  let payload := Orders.updateData (Orders.formState st) in
  match patchResult w (Orders._id eo) payload with
  | Some updated =>
      (Orders.mkState
         (map (fun ord => if (Orders._id ord =? Orders._id eo)%string
                          then updated else ord)
            (Orders.orders st))
         (Orders.loading st) None false Orders.emptyInput,
       [EvPatch (Orders._id eo) payload (Some updated)])
  | None =>
      (st, [EvPatch (Orders._id eo) payload None;
            EvAlert "Failed to update order"])
  end.
Proof.
  intros He Hid. unfold fire, Orders.handleUpdate. rewrite He, Hid. cbn.
  destruct (patchResult w _ _); reflexivity.
Qed.

Lemma orders_update_idle (w : Orders.W) (st : Orders.State) :
  (Orders.editingOrder st = None \/
   exists eo, Orders.editingOrder st = Some eo /\ truthy (Orders._id eo) = false) ->
  fire Orders.handleUpdate w st = (st, []).
Proof.
  unfold fire, Orders.handleUpdate.
  intros [He|[eo [He Hid]]]; rewrite He; [|rewrite Hid]; reflexivity.
Qed.

Lemma orders_addNew_fire (now : string) (w : Orders.W) (st : Orders.State) :
  fire (Orders.handleAddNew now) w st =
  let payload := Orders.createData now (Orders.formState st) in
  match createResult w payload with
  | Some created =>
      (Orders.mkState
         (match fetchResult w with
          | Some data => data
          | None => Orders.orders st
          end)
         false None false Orders.emptyInput,
       [EvCreate payload (Some created); EvFetch (fetchResult w)])
  | None =>
      (st, [EvCreate payload None; EvAlert "Failed to create order"])
  end.
Proof.
  unfold fire, Orders.handleAddNew. cbn [run]. cbv zeta.
  destruct (createResult w _); [|reflexivity].
  rewrite run_andThen. unfold Orders.fetchOrders. cbn.
  destruct (fetchResult w); reflexivity.
Qed.

Lemma products_update_fire (w : Products.W) (st : Products.State)
    (ep : Products.Product) :
  Products.editingProduct st = Some ep ->
  truthy (Products._id ep) = true ->
  fire Products.handleUpdate w st =
  match patchResult w (Products._id ep) (Products.formState st) with
  | Some updated =>
      (Products.mkState
         (map (fun prod => if (Products._id prod =? Products._id ep)%string
                           then Products.localOfDoc updated (Products.imagePreview st)
                           else prod)
            (Products.products st))
         (Products.loading st) None false Products.emptyInput "",
       [EvPatch (Products._id ep) (Products.formState st) (Some updated)])
  | None =>
      (st, [EvPatch (Products._id ep) (Products.formState st) None;
            EvAlert "Failed to update product"])
  end.
Proof.
  intros He Hid. unfold fire, Products.handleUpdate. rewrite He, Hid. cbn.
  destruct (patchResult w _ _); reflexivity.
Qed.

Lemma products_update_idle (w : Products.W) (st : Products.State) :
  (Products.editingProduct st = None \/
   exists ep, Products.editingProduct st = Some ep /\
              truthy (Products._id ep) = false) ->
  fire Products.handleUpdate w st = (st, []).
Proof.
  unfold fire, Products.handleUpdate.
  intros [He|[ep [He Hid]]]; rewrite He; [|rewrite Hid]; reflexivity.
Qed.

Lemma products_addNew_fire (w : Products.W) (st : Products.State) :
  fire Products.handleAddNew w st =
  let payload := Products.createData (Products.formState st) in
  match createResult w payload with
  | Some newProduct =>
      (Products.mkState
         (Products.products st
            ++ [Products.localOfDoc newProduct (Products.imagePreview st)])
         (Products.loading st) None false Products.emptyInput "",
       [EvCreate payload (Some newProduct)])
  | None =>
      (st, [EvCreate payload None; EvAlert "Failed to create product"])
  end.
Proof.
  unfold fire, Products.handleAddNew. cbn.
  destruct (createResult w _); reflexivity.
Qed.

(** ** C5: the local list after an update *)

(** C5. On the users and on the orders screen, with a record being edited:
    when the patch resolves, the local list keeps its length and order, every
    record whose id is the edited one is the document the backend returned
    and every other record is what it was; when the patch is rejected the
    whole screen state, the local list included, is what it was. *)
Theorem update_replaces_matching_record :
  (forall (w : Users.W) (st : Users.State) (eu : Users.User),
      Users.editingUser st = Some eu ->
      truthy (Users._id eu) = true ->
      let answer := patchResult w (Users._id eu) (Users.formState st) in
      let st' := fst (fire Users.handleUpdate w st) in
      (forall updated,
          answer = Some updated ->
          List.length (Users.users st') = List.length (Users.users st) /\
          forall i u,
            nth_error (Users.users st) i = Some u ->
            nth_error (Users.users st') i
            = Some (if (Users._id u =? Users._id eu)%string then updated else u)) /\
      (answer = None -> st' = st)) /\
  (forall (w : Orders.W) (st : Orders.State) (eo : Orders.Order),
      Orders.editingOrder st = Some eo ->
      truthy (Orders._id eo) = true ->
      let answer :=
        patchResult w (Orders._id eo) (Orders.updateData (Orders.formState st)) in
      let st' := fst (fire Orders.handleUpdate w st) in
      (forall updated,
          answer = Some updated ->
          List.length (Orders.orders st') = List.length (Orders.orders st) /\
          forall i o,
            nth_error (Orders.orders st) i = Some o ->
            nth_error (Orders.orders st') i
            = Some (if (Orders._id o =? Orders._id eo)%string then updated else o)) /\
      (answer = None -> st' = st)).
Proof.
  split.
  - intros w st eu He Hid answer st'. subst answer st'.
    rewrite (users_update_fire w st eu He Hid). split.
    + intros updated Hr. rewrite Hr. cbn. split; [apply length_map|].
      intros i u Hi.
      apply (nth_error_map_if _
               (fun x => (Users._id x =? Users._id eu)%string) updated _ _ _ Hi).
    + intros Hr. rewrite Hr. reflexivity.
  - intros w st eo He Hid answer st'. subst answer st'.
    rewrite (orders_update_fire w st eo He Hid). cbv zeta. split.
    + intros updated Hr. rewrite Hr. cbn. split; [apply length_map|].
      intros i o Hi.
      apply (nth_error_map_if _
               (fun x => (Orders._id x =? Orders._id eo)%string) updated _ _ _ Hi).
    + intros Hr. rewrite Hr. reflexivity.
Qed.

Lemma update_replaces_matching_record_witness :
  Users.editingUser Sample.editingAda = Some Sample.ada /\
  truthy (Users._id Sample.ada) = true /\
  patchResult Sample.renameAccepted (Users._id Sample.ada)
    (Users.formState Sample.editingAda) = Some Sample.adaRenamed /\
  nth_error (Users.users (fst (fire Users.handleUpdate Sample.renameAccepted
                                 Sample.editingAda))) 0
  = Some Sample.adaRenamed.
Proof.
  split; [reflexivity|]. split; [reflexivity|]. split; [reflexivity|].
  apply (proj2 (proj1 (proj1 update_replaces_matching_record
                         Sample.renameAccepted Sample.editingAda Sample.ada
                         eq_refl eq_refl)
                  Sample.adaRenamed eq_refl) 0 Sample.ada eq_refl).
Defined.

(** ** C6: the local list after a create *)

(** C6 as stated fails on the orders screen: the backend accepts the create
    and assigns the id [o9], the list held no such id, and afterward no record
    with id [o9] is in the local list. *)
Lemma order_create_success_record_not_listed :
  createResult Sample.createdThenOffline
    (Orders.createData "2024-07-01T09:00:00Z"
       (Orders.formState Sample.addingOrder)) = Some Sample.order9 /\
  Orders._id Sample.order9 = "o9" /\
  Orders.orders Sample.addingOrder = [] /\
  List.length
    (filter (fun o => (Orders._id o =? "o9")%string)
       (Orders.orders
          (fst (fire (Orders.handleAddNew "2024-07-01T09:00:00Z")
                  Sample.createdThenOffline Sample.addingOrder)))) = 0.
Proof.
  repeat split.
Qed.

(** C6, amended.  On the users and on the products screen a create that the
    backend accepts appends one record to the local list; the record carries
    the id of the document the backend returned, and when the list held no
    record with that id before it holds exactly one afterward.  On the orders
    screen an accepted create is followed by a refetch: the local list becomes
    the rows of that query, or stays as it was when the query fails. *)
Theorem create_adds_backend_record :
  (forall (w : Users.W) (st : Users.State) (newUser : Users.User),
      Users.missingRequired (Users.formState st) = false ->
      createResult w (Users.newUserData (Users.formState st)) = Some newUser ->
      (forall u, In u (Users.users st) -> Users._id u <> Users._id newUser) ->
      let st' := fst (fire Users.handleAddNew w st) in
      Users.users st' = Users.users st ++ [newUser] /\
      List.length
        (filter (fun u => (Users._id u =? Users._id newUser)%string)
           (Users.users st')) = 1) /\
  (forall (w : Products.W) (st : Products.State) (newProduct : Products.ProductDoc),
      createResult w (Products.createData (Products.formState st))
        = Some newProduct ->
      (forall p, In p (Products.products st) ->
                 Products._id p <> Products.doc__id newProduct) ->
      let st' := fst (fire Products.handleAddNew w st) in
      (exists added,
          Products.products st' = Products.products st ++ [added] /\
          Products._id added = Products.doc__id newProduct) /\
      List.length
        (filter (fun p => (Products._id p =? Products.doc__id newProduct)%string)
           (Products.products st')) = 1) /\
  (forall (now : string) (w : Orders.W) (st : Orders.State) (created : Orders.Order),
      createResult w (Orders.createData now (Orders.formState st)) = Some created ->
      let st' := fst (fire (Orders.handleAddNew now) w st) in
      Orders.orders st'
      = match fetchResult w with
        | Some data => data
        | None => Orders.orders st
        end).
Proof.
  repeat apply conj.
  - intros w st newUser Hv Hc Hfresh st'. subst st'.
    rewrite users_addNew_fire, Hv. cbv zeta. rewrite Hc. cbn.
    split; [reflexivity|].
    apply count_app_one.
    + intros x Hx. apply String.eqb_neq. now apply Hfresh.
    + apply String.eqb_refl.
  - intros w st newProduct Hc Hfresh st'. subst st'.
    rewrite products_addNew_fire. cbv zeta. rewrite Hc. cbn.
    split.
    + eexists. split; reflexivity.
    + apply (count_app_one _
               (fun p => (Products._id p =? Products.doc__id newProduct)%string)).
      * intros x Hx. apply String.eqb_neq. now apply Hfresh.
      * cbn. apply String.eqb_refl.
  - intros now w st created Hc st'. subst st'.
    rewrite orders_addNew_fire. cbv zeta. rewrite Hc. reflexivity.
Qed.

Lemma create_adds_backend_record_witness :
  Users.missingRequired (Users.formState Sample.addingBob) = false /\
  createResult Sample.bobCreated
    (Users.newUserData (Users.formState Sample.addingBob)) = Some Sample.bob /\
  (forall u, In u (Users.users Sample.addingBob) ->
             Users._id u <> Users._id Sample.bob) /\
  Users.users (fst (fire Users.handleAddNew Sample.bobCreated Sample.addingBob))
  = Users.users Sample.addingBob ++ [Sample.bob].
Proof.
  assert (Hfresh : forall u, In u (Users.users Sample.addingBob) ->
                             Users._id u <> Users._id Sample.bob).
  { intros u [Hu|[]]. subst u. cbn. discriminate. }
  split; [reflexivity|]. split; [reflexivity|]. split; [exact Hfresh|].
  apply (proj1 (proj1 create_adds_backend_record Sample.bobCreated
                  Sample.addingBob Sample.bob eq_refl eq_refl Hfresh)).
Defined.

(** ** C9: the document of a new user *)

(** C9. When the guard of the add-user handler lets the submission through,
    the create call carries a document of type "user" whose name, email,
    mobile number, password and address fields are the values of the form
    buffer; its verified flag is [false] when the buffer has none and the
    buffer's flag otherwise; its role is "user" when the buffer has none or an
    empty one and the buffer's role otherwise. *)
Theorem new_user_document_defaults (w : Users.W) (st : Users.State) :
  Users.missingRequired (Users.formState st) = false ->
  let fs := Users.formState st in
  exists doc answer rest,
    snd (fire Users.handleAddNew w st) = EvCreate doc answer :: rest /\
    Users.new__type doc = "user" /\
    Users.in_name fs = Some (Users.new_name doc) /\
    Users.in_email fs = Some (Users.new_email doc) /\
    Users.in_mobileNumber fs = Some (Users.new_mobileNumber doc) /\
    Users.in_password fs = Some (Users.new_password doc) /\
    (exists a,
        Users.in_address fs = Some a /\
        Users.in_street a = Some (Users.street (Users.new_address doc)) /\
        Users.in_city a = Some (Users.city (Users.new_address doc)) /\
        Users.in_state a = Some (Users.state (Users.new_address doc)) /\
        Users.in_country a = Some (Users.country (Users.new_address doc)) /\
        Users.in_postalCode a = Some (Users.postalCode (Users.new_address doc))) /\
    (Users.in_isVerified fs = None -> Users.new_isVerified doc = false) /\
    (forall b, Users.in_isVerified fs = Some b -> Users.new_isVerified doc = b) /\
    (Users.in_role fs = None \/ Users.in_role fs = Some "" ->
     Users.new_role doc = "user") /\
    (forall r, Users.in_role fs = Some r -> r <> "" -> Users.new_role doc = r).
Proof.
  intros Hv fs. subst fs.
  rewrite users_addNew_fire, Hv. cbv zeta.
  exists (Users.newUserData (Users.formState st)),
    (createResult w (Users.newUserData (Users.formState st))),
    (match createResult w (Users.newUserData (Users.formState st)) with
     | Some _ => []
     | None => [EvAlert "Failed to create user"]
     end).
  split. { destruct (createResult w _); reflexivity. }
  destruct (Users.formState st) as [fid fname femail fmobile fpass faddr fver frole].
  unfold Users.missingRequired, Users.addressField in Hv. cbn in Hv.
  repeat (apply orb_false_iff in Hv; destruct Hv as [Hv ?]).
  repeat match goal with
         | H : negb _ = false |- _ => apply negb_false_iff in H
         end.
  destruct fname as [fname|]; [|discriminate].
  destruct femail as [femail|]; [|discriminate].
  destruct fmobile as [fmobile|]; [|discriminate].
  destruct fpass as [fpass|]; [|discriminate].
  destruct faddr as [[s1 s2 s3 s4 s5]|]; [|discriminate].
  cbn in *.
  destruct s1 as [s1|]; [|discriminate].
  destruct s2 as [s2|]; [|discriminate].
  destruct s3 as [s3|]; [|discriminate].
  destruct s4 as [s4|]; [|discriminate].
  destruct s5 as [s5|]; [|discriminate].
  cbn. do 5 (split; [reflexivity|]).
  split. { eexists. split; [reflexivity|]. repeat split. }
  split. { intros ->. reflexivity. }
  split. { intros b ->. reflexivity. }
  split.
  - intros [->| ->]; reflexivity.
  - intros r -> Hr. unfold orDefault, truthy.
    apply String.eqb_neq in Hr. rewrite Hr. reflexivity.
Qed.

Lemma new_user_document_defaults_witness :
  Users.missingRequired (Users.formState Sample.addingBob) = false /\
  exists doc answer rest,
    snd (fire Users.handleAddNew Sample.bobCreated Sample.addingBob)
      = EvCreate doc answer :: rest /\
    Users.new_isVerified doc = false /\
    Users.new_role doc = "user".
Proof.
  split; [reflexivity|].
  destruct (new_user_document_defaults Sample.bobCreated Sample.addingBob eq_refl)
    as (doc & answer & rest & Htr & _ & _ & _ & _ & _ & _ & Hver & _ & Hrole & _).
  exists doc, answer, rest. split; [exact Htr|]. split.
  - apply Hver. reflexivity.
  - apply Hrole. left. reflexivity.
Defined.

(** ** C8: the form after a submission *)

Lemma users_submit_cases (w : Users.W) (st : Users.State) :
  let st' := fst (fire Users.onSubmit w st) in
  let tr := snd (fire Users.onSubmit w st) in
  (existsb isFailedMutation tr = true /\ existsb isDoneMutation tr = false /\
   st' = st) \/
  (existsb isFailedMutation tr = false /\ existsb isDoneMutation tr = true /\
   Users.showAddForm st' = false /\ Users.editingUser st' = None /\
   Users.formState st' = Users.emptyInput) \/
  (existsb isFailedMutation tr = false /\ existsb isDoneMutation tr = false /\
   st' = st).
Proof.
  cbv zeta. unfold fire, Users.onSubmit.
  destruct (Users.editingUser st) as [eu|] eqn:He.
  - change (run (Users.handleUpdate st) w st) with (fire Users.handleUpdate w st).
    destruct (truthy (Users._id eu)) eqn:Hid.
    + rewrite (users_update_fire w st eu He Hid).
      destruct (patchResult w _ _); cbn; [right; left|left]; repeat split.
    + rewrite users_update_idle by (right; eauto).
      right; right. repeat split.
  - change (run (Users.handleAddNew st) w st) with (fire Users.handleAddNew w st).
    rewrite users_addNew_fire.
    destruct (Users.missingRequired _); [right; right; repeat split|].
    cbv zeta. destruct (createResult w _); cbn; [right; left|left];
      repeat split. exact He.
Qed.

Lemma orders_submit_cases (now : string) (w : Orders.W) (st : Orders.State) :
  let st' := fst (fire (Orders.onSubmit now) w st) in
  let tr := snd (fire (Orders.onSubmit now) w st) in
  (existsb isFailedMutation tr = true /\ existsb isDoneMutation tr = false /\
   st' = st) \/
  (existsb isFailedMutation tr = false /\ existsb isDoneMutation tr = true /\
   Orders.isFormOpen st' = false /\ Orders.formState st' = Orders.emptyInput) \/
  (existsb isFailedMutation tr = false /\ existsb isDoneMutation tr = false /\
   st' = st).
Proof.
  cbv zeta. unfold fire, Orders.onSubmit, Orders.isEditing.
  destruct (Orders.editingOrder st) as [eo|] eqn:He.
  - change (run (Orders.handleUpdate st) w st) with (fire Orders.handleUpdate w st).
    destruct (truthy (Orders._id eo)) eqn:Hid.
    + rewrite (orders_update_fire w st eo He Hid). cbv zeta.
      destruct (patchResult w _ _); cbn; [right; left|left]; repeat split.
    + rewrite orders_update_idle by (right; eauto).
      right; right. repeat split.
  - change (run (Orders.handleAddNew now st) w st)
      with (fire (Orders.handleAddNew now) w st).
    rewrite orders_addNew_fire. cbv zeta.
    destruct (createResult w _); cbn; [right; left|left]; repeat split.
Qed.

Lemma products_submit_cases (w : Products.W) (st : Products.State) :
  let st' := fst (fire Products.onSubmit w st) in
  let tr := snd (fire Products.onSubmit w st) in
  (existsb isFailedMutation tr = true /\ existsb isDoneMutation tr = false /\
   st' = st) \/
  (existsb isFailedMutation tr = false /\ existsb isDoneMutation tr = true /\
   Products.isFormOpen st' = false /\
   Products.formState st' = Products.emptyInput /\
   Products.imagePreview st' = "") \/
  (existsb isFailedMutation tr = false /\ existsb isDoneMutation tr = false /\
   st' = st).
Proof.
  cbv zeta. unfold fire, Products.onSubmit, Products.isEditing.
  destruct (Products.editingProduct st) as [ep|] eqn:He.
  - change (run (Products.handleUpdate st) w st)
      with (fire Products.handleUpdate w st).
    destruct (truthy (Products._id ep)) eqn:Hid.
    + rewrite (products_update_fire w st ep He Hid).
      destruct (patchResult w _ _); cbn; [right; left|left]; repeat split.
    + rewrite products_update_idle by (right; eauto).
      right; right. repeat split.
  - change (run (Products.handleAddNew st) w st)
      with (fire Products.handleAddNew w st).
    rewrite products_addNew_fire. cbv zeta.
    destruct (createResult w _); cbn; [right; left|left]; repeat split.
Qed.

(** C8. On the users, orders and products screens, for every submission of an
    open form.  When a record is being edited the submission sends one patch
    of that record, and when none is (and, on the users screen, the guard
    lets the buffer through) it sends one create.  If the backend rejects
    that call, the screen state is what it was, so the form is still open and
    its buffer intact; if the backend accepts it, the form is closed, no
    record is being edited and the buffer is the empty one.  And the form is
    closed after a submission only if a create or patch call was accepted. *)
Theorem form_closes_only_on_success :
  (forall (w : Users.W) (st : Users.State),
      Users.isFormOpen st = true ->
      let st' := fst (fire Users.onSubmit w st) in
      let tr := snd (fire Users.onSubmit w st) in
      (forall eu,
          Users.editingUser st = Some eu ->
          truthy (Users._id eu) = true ->
          let answer := patchResult w (Users._id eu) (Users.formState st) in
          (exists rest,
              tr = EvPatch (Users._id eu) (Users.formState st) answer :: rest) /\
          (answer = None ->
           st' = st /\ Users.isFormOpen st' = true /\
           Users.formState st' = Users.formState st) /\
          (forall doc,
              answer = Some doc ->
              Users.isFormOpen st' = false /\ Users.editingUser st' = None /\
              Users.formState st' = Users.emptyInput)) /\
      (Users.editingUser st = None ->
       Users.missingRequired (Users.formState st) = false ->
       let answer := createResult w (Users.newUserData (Users.formState st)) in
       (exists rest,
           tr = EvCreate (Users.newUserData (Users.formState st)) answer :: rest) /\
       (answer = None ->
        st' = st /\ Users.isFormOpen st' = true /\
        Users.formState st' = Users.formState st) /\
       (forall doc,
           answer = Some doc ->
           Users.isFormOpen st' = false /\ Users.editingUser st' = None /\
           Users.formState st' = Users.emptyInput)) /\
      (existsb isFailedMutation tr = true ->
       st' = st /\ Users.isFormOpen st' = true /\
       Users.formState st' = Users.formState st) /\
      (existsb isDoneMutation tr = true ->
       Users.isFormOpen st' = false /\ Users.editingUser st' = None /\
       Users.formState st' = Users.emptyInput) /\
      (Users.isFormOpen st' = false -> existsb isDoneMutation tr = true)) /\
  (forall (now : string) (w : Orders.W) (st : Orders.State),
      Orders.isFormOpen st = true ->
      let st' := fst (fire (Orders.onSubmit now) w st) in
      let tr := snd (fire (Orders.onSubmit now) w st) in
      (forall eo,
          Orders.editingOrder st = Some eo ->
          truthy (Orders._id eo) = true ->
          let payload := Orders.updateData (Orders.formState st) in
          let answer := patchResult w (Orders._id eo) payload in
          (exists rest, tr = EvPatch (Orders._id eo) payload answer :: rest) /\
          (answer = None ->
           st' = st /\ Orders.isFormOpen st' = true /\
           Orders.formState st' = Orders.formState st) /\
          (forall doc,
              answer = Some doc ->
              Orders.isFormOpen st' = false /\ Orders.editingOrder st' = None /\
              Orders.formState st' = Orders.emptyInput)) /\
      (Orders.editingOrder st = None ->
       let payload := Orders.createData now (Orders.formState st) in
       let answer := createResult w payload in
       (exists rest, tr = EvCreate payload answer :: rest) /\
       (answer = None ->
        st' = st /\ Orders.isFormOpen st' = true /\
        Orders.formState st' = Orders.formState st) /\
       (forall doc,
           answer = Some doc ->
           Orders.isFormOpen st' = false /\ Orders.editingOrder st' = None /\
           Orders.formState st' = Orders.emptyInput)) /\
      (existsb isFailedMutation tr = true ->
       st' = st /\ Orders.isFormOpen st' = true /\
       Orders.formState st' = Orders.formState st) /\
      (existsb isDoneMutation tr = true ->
       Orders.isFormOpen st' = false /\ Orders.editingOrder st' = None /\
       Orders.formState st' = Orders.emptyInput) /\
      (Orders.isFormOpen st' = false -> existsb isDoneMutation tr = true)) /\
  (forall (w : Products.W) (st : Products.State),
      Products.isFormOpen st = true ->
      let st' := fst (fire Products.onSubmit w st) in
      let tr := snd (fire Products.onSubmit w st) in
      (forall ep,
          Products.editingProduct st = Some ep ->
          truthy (Products._id ep) = true ->
          let answer := patchResult w (Products._id ep) (Products.formState st) in
          (exists rest,
              tr = EvPatch (Products._id ep) (Products.formState st) answer
                   :: rest) /\
          (answer = None ->
           st' = st /\ Products.isFormOpen st' = true /\
           Products.formState st' = Products.formState st) /\
          (forall doc,
              answer = Some doc ->
              Products.isFormOpen st' = false /\
              Products.editingProduct st' = None /\
              Products.formState st' = Products.emptyInput /\
              Products.imagePreview st' = "")) /\
      (Products.editingProduct st = None ->
       let payload := Products.createData (Products.formState st) in
       let answer := createResult w payload in
       (exists rest, tr = EvCreate payload answer :: rest) /\
       (answer = None ->
        st' = st /\ Products.isFormOpen st' = true /\
        Products.formState st' = Products.formState st) /\
       (forall doc,
           answer = Some doc ->
           Products.isFormOpen st' = false /\
           Products.editingProduct st' = None /\
           Products.formState st' = Products.emptyInput /\
           Products.imagePreview st' = "")) /\
      (existsb isFailedMutation tr = true ->
       st' = st /\ Products.isFormOpen st' = true /\
       Products.formState st' = Products.formState st) /\
      (existsb isDoneMutation tr = true ->
       Products.isFormOpen st' = false /\ Products.editingProduct st' = None /\
       Products.formState st' = Products.emptyInput /\
       Products.imagePreview st' = "") /\
      (Products.isFormOpen st' = false -> existsb isDoneMutation tr = true)).
Proof.
  repeat apply conj.
  - intros w st Hopen st' tr. subst st' tr. split; [|split].
    + intros eu He Hid answer. subst answer.
      assert (Hf : fire Users.onSubmit w st = fire Users.handleUpdate w st).
      { unfold fire, Users.onSubmit. now rewrite He. }
      rewrite Hf, (users_update_fire w st eu He Hid).
      destruct (patchResult w _ _) as [d|]; cbn [fst snd].
      * split; [eexists; reflexivity|]. split; [discriminate|].
        intros doc _. repeat split.
      * split; [eexists; reflexivity|]. split; [|discriminate].
        intros _. repeat split. exact Hopen.
    + intros He Hv answer. subst answer.
      assert (Hf : fire Users.onSubmit w st = fire Users.handleAddNew w st).
      { unfold fire, Users.onSubmit. now rewrite He. }
      rewrite Hf, users_addNew_fire, Hv. cbv zeta.
      destruct (createResult w _) as [d|]; cbn [fst snd].
      * split; [eexists; reflexivity|]. split; [discriminate|].
        intros doc _. repeat split. exact He.
      * split; [eexists; reflexivity|]. split; [|discriminate].
        intros _. repeat split. exact Hopen.
    + destruct (users_submit_cases w st)
        as [(Hf & Hd & Hst)|[(Hf & Hd & Hc & He & Hb)|(Hf & Hd & Hst)]];
        rewrite ?Hf, ?Hd, ?Hst; unfold Users.isFormOpen in *;
        repeat split; try discriminate; try congruence.
  - intros now w st Hopen st' tr. subst st' tr. split; [|split].
    + intros eo He Hid payload answer. subst payload answer.
      assert (Hf : fire (Orders.onSubmit now) w st = fire Orders.handleUpdate w st).
      { unfold fire, Orders.onSubmit, Orders.isEditing. now rewrite He. }
      rewrite Hf, (orders_update_fire w st eo He Hid). cbv zeta.
      destruct (patchResult w _ _) as [d|]; cbn [fst snd].
      * split; [eexists; reflexivity|]. split; [discriminate|].
        intros doc _. repeat split.
      * split; [eexists; reflexivity|]. split; [|discriminate].
        intros _. repeat split. exact Hopen.
    + intros He payload answer. subst payload answer.
      assert (Hf : fire (Orders.onSubmit now) w st
                   = fire (Orders.handleAddNew now) w st).
      { unfold fire, Orders.onSubmit, Orders.isEditing. now rewrite He. }
      rewrite Hf, orders_addNew_fire. cbv zeta.
      destruct (createResult w _) as [d|]; cbn [fst snd].
      * split; [eexists; reflexivity|]. split; [discriminate|].
        intros doc _. repeat split.
      * split; [eexists; reflexivity|]. split; [|discriminate].
        intros _. repeat split. exact Hopen.
    + destruct (orders_submit_cases now w st)
        as [(Hf & Hd & Hst)|[(Hf & Hd & Hc & Hb)|(Hf & Hd & Hst)]];
        rewrite ?Hf, ?Hd, ?Hst; repeat split; try discriminate; try congruence.
      unfold Orders.isFormOpen, Orders.isEditing in Hc.
      destruct (Orders.editingOrder _); [discriminate|reflexivity].
  - intros w st Hopen st' tr. subst st' tr. split; [|split].
    + intros ep He Hid answer. subst answer.
      assert (Hf : fire Products.onSubmit w st = fire Products.handleUpdate w st).
      { unfold fire, Products.onSubmit, Products.isEditing. now rewrite He. }
      rewrite Hf, (products_update_fire w st ep He Hid).
      destruct (patchResult w _ _) as [d|]; cbn [fst snd].
      * split; [eexists; reflexivity|]. split; [discriminate|].
        intros doc _. repeat split.
      * split; [eexists; reflexivity|]. split; [|discriminate].
        intros _. repeat split. exact Hopen.
    + intros He payload answer. subst payload answer.
      assert (Hf : fire Products.onSubmit w st = fire Products.handleAddNew w st).
      { unfold fire, Products.onSubmit, Products.isEditing. now rewrite He. }
      rewrite Hf, products_addNew_fire. cbv zeta.
      destruct (createResult w _) as [d|]; cbn [fst snd].
      * split; [eexists; reflexivity|]. split; [discriminate|].
        intros doc _. repeat split.
      * split; [eexists; reflexivity|]. split; [|discriminate].
        intros _. repeat split. exact Hopen.
    + destruct (products_submit_cases w st)
        as [(Hf & Hd & Hst)|[(Hf & Hd & Hc & Hb & Hi)|(Hf & Hd & Hst)]];
        rewrite ?Hf, ?Hd, ?Hst; repeat split; try discriminate; try congruence.
      unfold Products.isFormOpen, Products.isEditing in Hc.
      destruct (Products.editingProduct _); [discriminate|reflexivity].
Qed.

Lemma form_closes_only_on_success_witness :
  Users.isFormOpen Sample.editingAda = true /\
  Users.editingUser Sample.editingAda = Some Sample.ada /\
  truthy (Users._id Sample.ada) = true /\
  patchResult Sample.renameAccepted (Users._id Sample.ada)
    (Users.formState Sample.editingAda) = Some Sample.adaRenamed /\
  Users.isFormOpen
    (fst (fire Users.onSubmit Sample.renameAccepted Sample.editingAda)) = false /\
  Users.formState
    (fst (fire Users.onSubmit Sample.renameAccepted Sample.editingAda))
  = Users.emptyInput.
Proof.
  do 4 (split; [reflexivity|]).
  destruct (proj2 (proj2 (proj1 (proj1 form_closes_only_on_success
                                   Sample.renameAccepted Sample.editingAda
                                   eq_refl)
                            Sample.ada eq_refl eq_refl))
              Sample.adaRenamed eq_refl) as (Hclosed & _ & Hbuf).
  split; [exact Hclosed|exact Hbuf].
Defined.

(** ** C1: the add-product form *)

(** C1, evaluated.  The create handler of the products screen has no guard:
    whatever the form buffer holds, its first act is the create call.  The add
    form with a name and a price typed in and the stock level left alone has
    no stock level in its buffer; its stock input shows "0", so every required
    input has a value and the submit button reaches the handler; the create
    call goes out without a stock level, and no alert is shown when the
    backend accepts it. *)
Theorem product_create_is_not_guarded :
  (forall (w : Products.W) (st : Products.State),
      exists answer rest,
        snd (fire Products.handleAddNew w st)
        = EvCreate (Products.createData (Products.formState st)) answer :: rest) /\
  Products.isFormOpen Sample.addingDesk = true /\
  Products.in_stockLevel (Products.formState Sample.addingDesk) = None /\
  Products.requiredValues (Products.formState Sample.addingDesk)
  = ["Desk"; "10"; "0"; "Chair"] /\
  (forall (w : Products.W),
      exists payload answer rest,
        snd (fire Products.pressSubmit w Sample.addingDesk)
        = EvCreate payload answer :: rest /\
        Products.new_name payload = Some "Desk" /\
        Products.new_stockLevel payload = None /\
        (answer <> None -> existsb isAlert rest = false)).
Proof.
  split.
  { intros w st. rewrite products_addNew_fire. cbv zeta.
    destruct (createResult w _); eexists; eexists; reflexivity. }
  do 3 (split; [reflexivity|]).
  intros w.
  change (fire Products.pressSubmit w Sample.addingDesk)
    with (fire Products.handleAddNew w Sample.addingDesk).
  rewrite products_addNew_fire. cbv zeta.
  destruct (createResult w _) as [d|]; do 3 eexists;
    (split; [reflexivity|]); repeat split.
  intros H. now contradiction H.
Qed.

(** ** C4: the status of an order *)

(** A completed patch that the backend accepts marks the matching orders
    completed and leaves the other orders alone. *)
Lemma complete_marks_completed (w : Orders.W) (st : Orders.State)
    (orderId : string) (answer : Orders.Order) :
  patchResult w orderId Orders.completedPatch = Some answer ->
  forall i o,
    nth_error (Orders.orders st) i = Some o ->
    nth_error (Orders.orders (fst (run (Orders.handleComplete orderId) w st))) i
    = Some (if (Orders._id o =? orderId)%string
            then Orders.withStatus o "completed" else o).
Proof.
  intros Hok i o Hi. unfold Orders.handleComplete. cbn. rewrite Hok. cbn.
  rewrite nth_error_map, Hi. reflexivity.
Qed.

(** C4, evaluated.  A click on the card of the pending order [o1] opens the
    editor, whose buffer records the status "pending".  "Complete" on the same
    card is accepted: the order is listed as completed.  "Update" then sends
    the buffer, status "pending" included; the store applies it, and the order
    that was completed is pending again, on the backend and in the list. *)
Theorem update_after_complete_reverts_status :
  let st1 := fst (run (Orders.handleEditClick Sample.order1)
                    (Sample.storeOf Sample.order1) Sample.ordersScreen) in
  let st2 := fst (run (Orders.handleComplete "o1")
                    (Sample.storeOf Sample.order1) st1) in
  let stored := Orders.withStatus Sample.order1 "completed" in
  let submit := fire (Orders.onSubmit "2024-08-01T00:00:00Z")
                  (Sample.storeOf stored) st2 in
  map Orders._id (Orders.pendingOrders Sample.ordersScreen) = ["o1"] /\
  Orders.isFormOpen st1 = true /\
  map Orders.status (Orders.orders st2) = ["completed"] /\
  map Orders._id (Orders.completedOrders st2) = ["o1"] /\
  Orders.isFormOpen st2 = true /\
  (exists payload answer,
      snd submit = [EvPatch "o1" payload (Some answer)] /\
      Orders.pl_status payload = Some "pending" /\
      Orders.status answer = "pending") /\
  map Orders.status (Orders.orders (fst submit)) = ["pending"] /\
  map Orders._id (Orders.pendingOrders (fst submit)) = ["o1"] /\
  Orders.completedOrders (fst submit) = [].
Proof.
  cbv zeta. repeat split; try reflexivity.
  do 2 eexists. repeat split; reflexivity.
Qed.

(** ** [split] and [trim] *)

Lemma split_not_nil (sep : ascii) (s : string) : split sep s <> [].
Proof.
  destruct s as [|c rest]; cbn; [discriminate|].
  destruct (Ascii.eqb c sep); [discriminate|].
  destruct (split sep rest); discriminate.
Qed.

Lemma concat_cons_cons (sep x y : string) (l : list string) :
  String.concat sep (x :: y :: l)
  = (x ++ sep ++ String.concat sep (y :: l))%string.
Proof. reflexivity. Qed.

Lemma split_concat (s : string) : String.concat "," (split comma s) = s.
Proof.
  induction s as [|c rest IH]; [reflexivity|].
  cbn [split]. destruct (Ascii.eqb c comma) eqn:Ec.
  - apply Ascii.eqb_eq in Ec. subst c.
    destruct (split comma rest) as [|piece more] eqn:Es.
    + now destruct (split_not_nil comma rest).
    + rewrite concat_cons_cons, IH. reflexivity.
  - destruct (split comma rest) as [|piece more] eqn:Es.
    + now destruct (split_not_nil comma rest).
    + destruct more as [|piece' more].
      * cbn in *. now rewrite IH.
      * rewrite concat_cons_cons. rewrite concat_cons_cons in IH.
        rewrite <- IH. reflexivity.
Qed.

Lemma split_pieces_no_comma (s : string) :
  Forall (fun piece => hasChar comma piece = false) (split comma s).
Proof.
  induction s as [|c rest IH]; cbn [split].
  - constructor; [reflexivity|constructor].
  - destruct (Ascii.eqb c comma) eqn:Ec.
    + constructor; [reflexivity|exact IH].
    + destruct (split comma rest) as [|piece more].
      * constructor; [|constructor]. cbn. now rewrite Ec.
      * inversion IH as [|? ? Hp Hm]; subst.
        constructor; [|exact Hm]. cbn. now rewrite Ec, Hp.
Qed.

Lemma split_is_comma_split (s : string) : isCommaSplitOf s (split comma s).
Proof.
  split; [apply split_not_nil|].
  split; [apply split_concat|apply split_pieces_no_comma].
Qed.

Lemma trimStart_spec (s : string) :
  exists before,
    s = (before ++ trimStart s)%string /\
    allWhite before = true /\
    startsWhite (trimStart s) = false.
Proof.
  induction s as [|c rest IH].
  - exists ""%string. repeat split.
  - cbn [trimStart]. destruct (isWhiteSpace c) eqn:Ec.
    + destruct IH as (before & Heq & Hw & Hs).
      exists (String c before). cbn. rewrite Ec, Hw. repeat split; [|exact Hs].
      now rewrite <- Heq.
    + exists ""%string. cbn. repeat split. exact Ec.
Qed.

Lemma trimEnd_spec (s : string) :
  exists after,
    s = (trimEnd s ++ after)%string /\
    allWhite after = true /\
    endsWhite (trimEnd s) = false.
Proof.
  induction s as [|c rest IH].
  - exists ""%string. repeat split.
  - destruct IH as (after & Heq & Hw & He).
    cbn [trimEnd]. destruct (trimEnd rest) as [|d kept] eqn:Et.
    + cbn in Heq. subst after. destruct (isWhiteSpace c) eqn:Ec.
      * exists (String c rest). cbn. rewrite Ec, Hw. repeat split.
      * exists rest. cbn. rewrite Ec. repeat split. exact Hw.
    + exists after. split; [|split; [exact Hw|]].
      * cbn. cbn in Heq. now rewrite <- Heq.
      * cbn [endsWhite]. exact He.
Qed.

Lemma trimEnd_keeps_start (s : string) :
  startsWhite s = false -> startsWhite (trimEnd s) = false.
Proof.
  destruct s as [|c rest]; [reflexivity|]. cbn [startsWhite trimEnd].
  intros Hc. destruct (trimEnd rest); [rewrite Hc|]; cbn; exact Hc.
Qed.

Lemma trim_is_trim (s : string) : isTrimOf s (trim s).
Proof.
  unfold trim.
  destruct (trimStart_spec s) as (before & Heq & Hb & Hs).
  destruct (trimEnd_spec (trimStart s)) as (after & Heq' & Ha & He).
  exists before, after. split; [|repeat split].
  - now rewrite <- Heq', <- Heq.
  - exact Hb.
  - exact Ha.
  - now apply trimEnd_keeps_start.
  - exact He.
Qed.

Lemma trimStart_clean (s : string) : startsWhite s = false -> trimStart s = s.
Proof.
  destruct s as [|c rest]; [reflexivity|]. cbn. now intros ->.
Qed.

Lemma trimEnd_clean (s : string) : endsWhite s = false -> trimEnd s = s.
Proof.
  induction s as [|c rest IH]; [reflexivity|].
  cbn [endsWhite trimEnd]. destruct rest as [|d rest'].
  - cbn. now intros ->.
  - intros He. rewrite (IH He). reflexivity.
Qed.

Lemma split_clean_piece (a : string) :
  hasChar comma a = false -> split comma a = [a].
Proof.
  induction a as [|c rest IH]; [reflexivity|]. cbn.
  intros H. apply orb_false_iff in H. destruct H as [Hc Hr].
  rewrite Hc, (IH Hr). reflexivity.
Qed.

Lemma split_piece_comma (a rest : string) :
  hasChar comma a = false ->
  split comma (a ++ String comma rest) = a :: split comma rest.
Proof.
  induction a as [|c a' IH]; [reflexivity|]. cbn.
  intros H. apply orb_false_iff in H. destruct H as [Hc Hr].
  rewrite Hc, (IH Hr). reflexivity.
Qed.

Lemma split_joined_ids (x : string) (l : list string) :
  Forall (fun id => hasChar comma id = false) (x :: l) ->
  split comma (String.concat ", " (x :: l)) = x :: map (String " "%char) l.
Proof.
  revert x. induction l as [|y l IH]; intros x Hall.
  - cbn. apply split_clean_piece. now inversion Hall.
  - inversion Hall as [|? ? Hx Hrest]; subst.
    rewrite concat_cons_cons.
    change (x ++ ", " ++ String.concat ", " (y :: l))%string
      with (x ++ String comma (String " "%char (String.concat ", " (y :: l))))%string.
    rewrite (split_piece_comma _ _ Hx).
    cbn [split]. change (Ascii.eqb " "%char comma) with false. cbv iota.
    rewrite (IH y Hrest). reflexivity.
Qed.

Lemma map_trim_is_trim (pieces : list string) :
  Forall2 isTrimOf pieces (map trim pieces).
Proof.
  induction pieces as [|p l IH]; constructor; [apply trim_is_trim|exact IH].
Qed.

Lemma cartItemsArray_of_joined_ids (fs : Orders.OrderInput) (ids : list string) :
  Orders.in_cartItems fs = Some (String.concat ", " ids) ->
  forallb cleanId ids = true ->
  Orders.cartItemsArray fs = ids.
Proof.
  intros Htext Hclean. unfold Orders.cartItemsArray. rewrite Htext.
  destruct ids as [|x l]; [reflexivity|].
  assert (Hcomma : Forall (fun id => hasChar comma id = false) (x :: l)).
  { apply Forall_forall. intros id Hid.
    rewrite forallb_forall in Hclean. specialize (Hclean id Hid).
    unfold cleanId in Hclean.
    repeat (apply andb_true_iff in Hclean; destruct Hclean as [Hclean ?]).
    now apply negb_true_iff. }
  assert (Htruthy : truthy (String.concat ", " (x :: l)) = true).
  { cbn [forallb] in Hclean. apply andb_true_iff in Hclean.
    destruct Hclean as [Hx _]. unfold cleanId in Hx.
    repeat (apply andb_true_iff in Hx; destruct Hx as [Hx ?]).
    destruct x as [|c x']; [discriminate|].
    destruct l; reflexivity. }
  rewrite Htruthy, (split_joined_ids x l Hcomma).
  cbn [map forallb] in *. apply andb_true_iff in Hclean.
  destruct Hclean as [Hx Hl]. f_equal.
  - unfold cleanId in Hx.
    repeat (apply andb_true_iff in Hx; destruct Hx as [Hx ?]).
    unfold trim. rewrite trimStart_clean, trimEnd_clean;
      [reflexivity| |]; now apply negb_true_iff.
  - clear Hcomma Htruthy Htext Hx. induction l as [|y l IH]; [reflexivity|].
    cbn [map forallb] in *. apply andb_true_iff in Hl.
    destruct Hl as [Hy Hl]. f_equal; [|now apply IH].
    unfold cleanId in Hy.
    repeat (apply andb_true_iff in Hy; destruct Hy as [Hy ?]).
    unfold trim. cbn [trimStart]. change (isWhiteSpace " "%char) with true.
    cbv iota. rewrite trimStart_clean, trimEnd_clean;
      [reflexivity| |]; now apply negb_true_iff.
Qed.

(** X15. Opening the editor on an order and submitting it untouched sends the
    product ids of its line items and nothing else of them, as long as each id
    is not empty, has no comma and no white space at either end. *)
Lemma edit_then_update_sends_product_ids
    (w0 w : Orders.W) (st : Orders.State) (order : Orders.Order) :
  truthy (Orders._id order) = true ->
  forallb cleanId
    (map (fun item => Orders.product_id (Orders.product item))
       (Orders.cartItems order)) = true ->
  let st1 := fst (run (Orders.handleEditClick order) w0 st) in
  exists payload answer rest,
    snd (fire Orders.handleUpdate w st1)
    = EvPatch (Orders._id order) payload answer :: rest /\
    Orders.pl_cartItems payload
    = Some (map (fun item => Orders.product_id (Orders.product item))
              (Orders.cartItems order)).
Proof.
  intros Hid Hclean st1.
  assert (He : Orders.editingOrder st1 = Some order) by reflexivity.
  rewrite (orders_update_fire w st1 order He Hid). cbv zeta.
  exists (Orders.updateData (Orders.formState st1)).
  destruct (patchResult w _ _); do 2 eexists; (split; [reflexivity|]);
    cbn [Orders.pl_cartItems Orders.updateData]; f_equal;
    now apply cartItemsArray_of_joined_ids.
Qed.

(** ** C10: the line items of an order update *)

(** C10. Every submission of the order editor patches the edited order with a
    payload whose [cartItems] is a list of strings computed from the text of
    the form's cart field alone: the empty list when the text is absent or
    empty, and otherwise the stretches of the text between its commas, each
    without the white space around it. *)
Theorem order_update_sends_id_strings
    (now : string) (w : Orders.W) (st : Orders.State) (eo : Orders.Order) :
  Orders.editingOrder st = Some eo ->
  truthy (Orders._id eo) = true ->
  let fs := Orders.formState st in
  exists payload answer rest items,
    snd (fire (Orders.onSubmit now) w st)
    = EvPatch (Orders._id eo) payload answer :: rest /\
    Orders.pl_cartItems payload = Some items /\
    (Orders.in_cartItems fs = None \/ Orders.in_cartItems fs = Some "" ->
     items = []) /\
    (forall text,
        Orders.in_cartItems fs = Some text ->
        text <> "" ->
        exists pieces,
          isCommaSplitOf text pieces /\ Forall2 isTrimOf pieces items).
Proof.
  intros He Hid fs. subst fs.
  assert (Hfire : fire (Orders.onSubmit now) w st = fire Orders.handleUpdate w st).
  { unfold fire, Orders.onSubmit, Orders.isEditing. now rewrite He. }
  rewrite Hfire, (orders_update_fire w st eo He Hid). cbv zeta.
  exists (Orders.updateData (Orders.formState st)),
    (patchResult w (Orders._id eo) (Orders.updateData (Orders.formState st))),
    (match patchResult w (Orders._id eo)
             (Orders.updateData (Orders.formState st)) with
     | Some _ => []
     | None => [EvAlert "Failed to update order"]
     end),
    (Orders.cartItemsArray (Orders.formState st)).
  split. { destruct (patchResult w _ _); reflexivity. }
  split; [reflexivity|]. unfold Orders.cartItemsArray. split.
  - intros [-> | ->]; reflexivity.
  - intros text -> Hne. apply String.eqb_neq in Hne.
    unfold truthy. rewrite Hne. cbn [negb].
    exists (split comma text). split;
      [apply split_is_comma_split|apply map_trim_is_trim].
Qed.

Lemma order_update_sends_id_strings_witness :
  let st := fst (run (Orders.handleEditClick Sample.order1)
                   (Sample.storeOf Sample.order1) Sample.ordersScreen) in
  Orders.editingOrder st = Some Sample.order1 /\
  truthy (Orders._id Sample.order1) = true /\
  Orders.in_cartItems (Orders.formState st) = Some "p1, p7" /\
  exists payload answer rest items,
    snd (fire (Orders.onSubmit "2024-08-01T00:00:00Z")
           (Sample.storeOf Sample.order1) st)
    = EvPatch "o1" payload answer :: rest /\
    Orders.pl_cartItems payload = Some items /\
    exists pieces,
      isCommaSplitOf "p1, p7" pieces /\ Forall2 isTrimOf pieces items.
Proof.
  cbv zeta. split; [reflexivity|]. split; [reflexivity|]. split; [reflexivity|].
  destruct (order_update_sends_id_strings "2024-08-01T00:00:00Z"
              (Sample.storeOf Sample.order1)
              (fst (run (Orders.handleEditClick Sample.order1)
                      (Sample.storeOf Sample.order1) Sample.ordersScreen))
              Sample.order1 eq_refl eq_refl)
    as (payload & answer & rest & items & Htr & Hitems & _ & Hsplit).
  exists payload, answer, rest, items. split; [exact Htr|]. split; [exact Hitems|].
  apply Hsplit; [reflexivity|discriminate].
Defined.

(** * Further properties of the screens *)

(** ** Card text *)

Lemma length_append (a b : string) :
  String.length (a ++ b) = (String.length a + String.length b)%nat.
Proof.
  induction a as [|c a IH]; [reflexivity|]. cbn. now rewrite IH.
Qed.

Lemma length_substring_0 (n : nat) (s : string) :
  String.length (substring 0 n s) = Nat.min n (String.length s).
Proof.
  revert n. induction s as [|c s IH]; intros [|n]; cbn; try reflexivity.
  now rewrite IH.
Qed.

Lemma substring_0_all (n : nat) (s : string) :
  (String.length s <= n)%nat -> substring 0 n s = s.
Proof.
  revert n. induction s as [|c s IH]; intros [|n] H; cbn in *;
    try reflexivity; try lia.
  rewrite IH by lia. reflexivity.
Qed.

Lemma substring_0_append (a b : string) :
  substring 0 (String.length a) (a ++ b) = a.
Proof.
  induction a as [|c a IH]; cbn.
  - destruct b; reflexivity.
  - now rewrite IH.
Qed.

Lemma prefix_append (a b : string) : String.prefix a (a ++ b) = true.
Proof.
  induction a as [|c a IH]; cbn; [now destruct b|].
  destruct (ascii_dec c c) as [_|Hne]; [exact IH|now destruct Hne].
Qed.

Lemma prefix_refl (a : string) : String.prefix a a = true.
Proof.
  induction a as [|c a IH]; cbn; [reflexivity|].
  destruct (ascii_dec c c) as [_|Hne]; [exact IH|now destruct Hne].
Qed.

Lemma substring_skip (a b : string) (m : nat) :
  substring (String.length a) m (a ++ b) = substring 0 m b.
Proof.
  induction a as [|c a IH]; [reflexivity|]. cbn. exact IH.
Qed.

(** X1. The card text is the message itself when it has at most [limit] code
    units, and otherwise its first [limit] code units followed by three dots:
    it always starts with the first [limit] code units of the message, and
    when the message is longer than [limit] it is [limit + 3] long and its
    last three units are "..." (so a message one or two units over the limit
    is shown longer than it is). *)
Theorem truncateText_shape (text : string) (limit : nat) :
  String.prefix (substring 0 limit text) (truncateText text limit) = true /\
  String.length (truncateText text limit)
  = (if (limit <? String.length text)%nat then (limit + 3)%nat
     else String.length text) /\
  ((String.length text <= limit)%nat -> truncateText text limit = text) /\
  ((limit < String.length text)%nat ->
   substring 0 limit (truncateText text limit) = substring 0 limit text /\
   substring limit 3 (truncateText text limit) = "...").
Proof.
  unfold truncateText. destruct (limit <? String.length text)%nat eqn:E.
  - apply Nat.ltb_lt in E.
    assert (Hlen : String.length (substring 0 limit text) = limit).
    { rewrite length_substring_0. lia. }
    split; [apply prefix_append|]. split.
    + rewrite length_append, Hlen. cbn. lia.
    + split; [lia|]. intros _. split.
      * rewrite <- Hlen at 1. apply substring_0_append.
      * rewrite <- Hlen at 1. rewrite substring_skip. reflexivity.
  - apply Nat.ltb_ge in E. split.
    + rewrite substring_0_all by exact E. apply prefix_refl.
    + split; [reflexivity|]. split; [reflexivity|]. lia.
Qed.

(** X2. Shortening a card text that was already shortened changes nothing. *)
Theorem truncateText_idempotent (text : string) (limit : nat) :
  truncateText (truncateText text limit) limit = truncateText text limit.
Proof.
  unfold truncateText at 2 3. destruct (limit <? String.length text)%nat eqn:E;
    [|unfold truncateText; now rewrite E].
  apply Nat.ltb_lt in E. unfold truncateText.
  assert (Hlen : String.length (substring 0 limit text) = limit).
  { rewrite length_substring_0. lia. }
  rewrite length_append, Hlen. cbn [String.length].
  replace (limit <? limit + 3)%nat with true by (symmetry; apply Nat.ltb_lt; lia).
  rewrite <- Hlen at 1. rewrite substring_0_append. reflexivity.
Qed.

(** ** The two sections of the messages screen *)

Lemma partition_permutation {A : Type} (p : A -> bool) (l : list A) :
  Permutation (filter p l ++ filter (fun x => negb (p x)) l) l.
Proof.
  induction l as [|a l IH]; [constructor|]. cbn.
  destruct (p a); cbn.
  - now constructor.
  - apply Permutation_sym, Permutation_cons_app. now apply Permutation_sym.
Qed.

(** X3. While the list is loading the screen shows no card.  Otherwise,
    whatever the list holds, it shows every message exactly once: the cards
    from top to bottom are the pinned section followed by the other one, a
    rearrangement of the local list that keeps the order of the list inside
    each section. *)
Theorem rendered_shows_each_message_once (st : Messages.State) :
  (Messages.loading st = true -> Messages.rendered st = []) /\
  (Messages.loading st = false ->
   Messages.rendered st
   = Messages.pinnedMessages st ++ Messages.unpinnedMessages st /\
   Permutation (Messages.rendered st) (Messages.messages st)) /\
  (List.length (Messages.pinnedMessages st)
     + List.length (Messages.unpinnedMessages st))%nat
  = List.length (Messages.messages st) /\
  (forall m, In m (Messages.pinnedMessages st) <->
             In m (Messages.messages st) /\ Messages.pinned m = true) /\
  (forall m, In m (Messages.unpinnedMessages st) <->
             In m (Messages.messages st) /\ Messages.pinned m = false).
Proof.
  assert (Hp : Permutation
                 (Messages.pinnedMessages st ++ Messages.unpinnedMessages st)
                 (Messages.messages st)).
  { apply (partition_permutation (fun msg => Messages.pinned msg)). }
  split; [|split; [|split]].
  - intros Hl. unfold Messages.rendered. now rewrite Hl.
  - intros Hl. unfold Messages.rendered. rewrite Hl. split; [reflexivity|exact Hp].
  - rewrite <- (Permutation_length Hp). now rewrite List.length_app.
  - split; intros m; unfold Messages.pinnedMessages, Messages.unpinnedMessages;
      rewrite filter_In; [reflexivity|].
    now rewrite negb_true_iff.
Qed.

Lemma rendered_shows_each_message_once_witness :
  Messages.loading Sample.loaded = false /\
  Permutation (Messages.rendered Sample.loaded) (Messages.messages Sample.loaded).
Proof.
  split; [reflexivity|].
  apply (proj2 (proj1 (proj2 (rendered_shows_each_message_once Sample.loaded))
                  eq_refl)).
Defined.

Lemma truncateText_shape_witness :
  (String.length "Where is my chair? It never came." > 20)%nat /\
  substring 20 3 (truncateText "Where is my chair? It never came." 20) = "...".
Proof.
  assert (H : (20 < String.length "Where is my chair? It never came.")%nat)
    by (cbn; lia).
  split; [exact H|].
  apply (proj2 (proj2 (proj2 (proj2
           (truncateText_shape "Where is my chair? It never came." 20))) H)).
Defined.

(** ** Loading the list *)

(** X4. On each of the four screens a list query that fails shows no alert,
    leaves the list, the editor and the form buffer as they were, and ends
    with the loading flag off; the only thing the outside sees is the
    query. *)
Theorem fetch_failure_keeps_screen :
  (forall (w : Messages.W) (st : Messages.State),
      fetchResult w = None ->
      run Messages.fetchMessages w st
      = (Messages.setLoading false st, [EvFetch None])) /\
  (forall (w : Users.W) (st : Users.State),
      fetchResult w = None ->
      run Users.fetchUsers w st = (Users.setLoading false st, [EvFetch None])) /\
  (forall (w : Orders.W) (st : Orders.State),
      fetchResult w = None ->
      run Orders.fetchOrders w st = (Orders.setLoading false st, [EvFetch None])) /\
  (forall (w : Products.W) (st : Products.State),
      fetchResult w = None ->
      run Products.fetchProducts w st
      = (Products.setLoading false st, [EvFetch None])).
Proof.
  repeat apply conj; intros w st Hf; cbn; rewrite Hf; reflexivity.
Qed.

Lemma fetch_failure_keeps_screen_witness :
  fetchResult Sample.deletedThenOffline = None /\
  Products.products
    (fst (run Products.fetchProducts Sample.deletedThenOffline Sample.shop))
  = [Sample.chair].
Proof.
  split; [reflexivity|].
  rewrite (proj2 (proj2 (proj2 fetch_failure_keeps_screen))
             Sample.deletedThenOffline Sample.shop eq_refl).
  reflexivity.
Defined.

(** X5. A list query that succeeds replaces the whole local list by the rows
    it returned, in their order: the messages and orders lists are the rows
    themselves; the users and products lists have, position by position, one
    record per row that carries every field of the row (a product's image is
    the row's image address, without a reference).  Nothing of the previous
    list survives, and the editor and the form buffer are not touched: a
    record that is being edited stays in the editor even when the new list no
    longer holds it. *)
Theorem fetch_success_replaces_list :
  (forall (w : Messages.W) (st : Messages.State) rows,
      fetchResult w = Some rows ->
      let st' := fst (run Messages.fetchMessages w st) in
      Messages.messages st' = rows /\
      Messages.selectedMessage st' = Messages.selectedMessage st /\
      Messages.loading st' = false) /\
  (forall (w : Users.W) (st : Users.State) rows,
      fetchResult w = Some rows ->
      let st' := fst (run Users.fetchUsers w st) in
      List.length (Users.users st') = List.length rows /\
      (forall i row,
          nth_error rows i = Some row ->
          nth_error (Users.users st') i
          = Some (Users.mkUser (Users.doc__id row) (Users.doc_name row)
                    (Users.doc_email row) (Users.doc_mobileNumber row)
                    (Users.doc_password row) (Users.doc_address row)
                    (Users.doc_isVerified row) (Users.doc_role row))) /\
      Users.editingUser st' = Users.editingUser st /\
      Users.showAddForm st' = Users.showAddForm st /\
      Users.formState st' = Users.formState st /\
      Users.showPassword st' = Users.showPassword st /\
      Users.loading st' = false) /\
  (forall (w : Orders.W) (st : Orders.State) rows,
      fetchResult w = Some rows ->
      let st' := fst (run Orders.fetchOrders w st) in
      Orders.orders st' = rows /\
      Orders.editingOrder st' = Orders.editingOrder st /\
      Orders.showAddForm st' = Orders.showAddForm st /\
      Orders.formState st' = Orders.formState st /\
      Orders.loading st' = false) /\
  (forall (w : Products.W) (st : Products.State) rows,
      fetchResult w = Some rows ->
      let st' := fst (run Products.fetchProducts w st) in
      List.length (Products.products st') = List.length rows /\
      (forall i row,
          nth_error rows i = Some row ->
          nth_error (Products.products st') i
          = Some (Products.mkProduct (Products.row__id row)
                    (Products.row_name row)
                    (Some (Products.mkImage
                             (Products.mkAsset None (Products.row_imageUrl row))))
                    (Products.row_price row) (Products.row_description row)
                    (Products.row_discountPercentage row)
                    (Products.row_isFeaturedProduct row)
                    (Products.row_stockLevel row) (Products.row_category row))) /\
      Products.editingProduct st' = Products.editingProduct st /\
      Products.showAddForm st' = Products.showAddForm st /\
      Products.formState st' = Products.formState st /\
      Products.imagePreview st' = Products.imagePreview st /\
      Products.loading st' = false).
Proof.
  repeat apply conj; intros w st rows Hf; cbn; rewrite Hf; cbn;
    repeat split; try apply length_map;
    intros i row Hi; rewrite nth_error_map, Hi; reflexivity.
Qed.

Lemma fetch_success_replaces_list_witness :
  fetchResult Sample.deletedThenStale = Some [Sample.chairRow] /\
  nth_error
    (Products.products
       (fst (run Products.fetchProducts Sample.deletedThenStale Sample.shop))) 0
  = Some Sample.chair.
Proof.
  split; [reflexivity|].
  apply (proj1 (proj2 (proj2 (proj2 (proj2 fetch_success_replaces_list))
                         Sample.deletedThenStale Sample.shop [Sample.chairRow]
                         eq_refl))
           0 Sample.chairRow eq_refl).
Defined.

(** ** Deleting *)

(** X6. On each of the four screens a delete whose confirmation is declined
    does nothing: the state is what it was and the only thing that happened
    is the question; no backend call is issued and no alert is shown. *)
Theorem delete_declined_is_noop :
  (forall (w : Messages.W) (st : Messages.State) (id : string),
      confirmAnswer w "Are you sure you want to delete this message?" = false ->
      run (Messages.handleDelete id) w st
      = (st, [EvConfirm "Are you sure you want to delete this message?" false])) /\
  (forall (w : Users.W) (st : Users.State) (id : string),
      confirmAnswer w "Are you sure you want to delete this user?" = false ->
      run (Users.handleDelete id) w st
      = (st, [EvConfirm "Are you sure you want to delete this user?" false])) /\
  (forall (w : Orders.W) (st : Orders.State) (id : string),
      confirmAnswer w "Are you sure you want to delete this order?" = false ->
      run (Orders.handleDelete id) w st
      = (st, [EvConfirm "Are you sure you want to delete this order?" false])) /\
  (forall (w : Products.W) (st : Products.State) (id : string),
      confirmAnswer w "Are you sure you want to delete this product?" = false ->
      run (Products.handleDelete id) w st
      = (st, [EvConfirm "Are you sure you want to delete this product?" false])).
Proof.
  repeat apply conj; intros w st id Hc; cbn; rewrite Hc; reflexivity.
Qed.

Lemma filter_all_true {A : Type} (p : A -> bool) (l : list A) :
  (forall x, In x l -> p x = true) -> filter p l = l.
Proof.
  induction l as [|a l IH]; intros H; [reflexivity|]. cbn.
  rewrite (H a (or_introl eq_refl)). f_equal. apply IH.
  intros x Hx. apply H. now right.
Qed.

Lemma filter_twice {A : Type} (p : A -> bool) (l : list A) :
  filter p (filter p l) = filter p l.
Proof.
  apply filter_all_true. intros x Hx. now apply filter_In in Hx.
Qed.

(** X7. On the messages, users and orders screens an accepted delete of an
    id that no record of the list carries leaves the list as it was, and an
    accepted delete of an id that was just deleted changes nothing more: the
    local removal can be repeated without harm. *)
Theorem delete_is_idempotent :
  (forall (w1 w2 : Messages.W) (st : Messages.State) (id : string),
      confirmAnswer w1 "Are you sure you want to delete this message?" = true ->
      deleteResult w1 id = true ->
      confirmAnswer w2 "Are you sure you want to delete this message?" = true ->
      deleteResult w2 id = true ->
      let st1 := fst (run (Messages.handleDelete id) w1 st) in
      ((forall m, In m (Messages.messages st) -> Messages._id m <> id) ->
       Messages.messages st1 = Messages.messages st) /\
      Messages.messages (fst (run (Messages.handleDelete id) w2 st1))
      = Messages.messages st1) /\
  (forall (w1 w2 : Users.W) (st : Users.State) (id : string),
      confirmAnswer w1 "Are you sure you want to delete this user?" = true ->
      deleteResult w1 id = true ->
      confirmAnswer w2 "Are you sure you want to delete this user?" = true ->
      deleteResult w2 id = true ->
      let st1 := fst (run (Users.handleDelete id) w1 st) in
      ((forall u, In u (Users.users st) -> Users._id u <> id) ->
       Users.users st1 = Users.users st) /\
      Users.users (fst (run (Users.handleDelete id) w2 st1)) = Users.users st1) /\
  (forall (w1 w2 : Orders.W) (st : Orders.State) (id : string),
      confirmAnswer w1 "Are you sure you want to delete this order?" = true ->
      deleteResult w1 id = true ->
      confirmAnswer w2 "Are you sure you want to delete this order?" = true ->
      deleteResult w2 id = true ->
      let st1 := fst (run (Orders.handleDelete id) w1 st) in
      ((forall o, In o (Orders.orders st) -> Orders._id o <> id) ->
       Orders.orders st1 = Orders.orders st) /\
      Orders.orders (fst (run (Orders.handleDelete id) w2 st1)) = Orders.orders st1).
Proof.
  repeat apply conj; intros w1 w2 st id Hc1 Hd1 Hc2 Hd2 st1; subst st1.
  - rewrite (messages_delete_ok w2 _ id Hc2 Hd2),
      (messages_delete_ok w1 st id Hc1 Hd1). split.
    + intros Hfresh. apply filter_all_true. intros x Hx.
      apply negb_true_iff, String.eqb_neq. now apply Hfresh.
    + apply filter_twice.
  - rewrite (users_delete_ok w2 _ id Hc2 Hd2),
      (users_delete_ok w1 st id Hc1 Hd1). split.
    + intros Hfresh. apply filter_all_true. intros x Hx.
      apply negb_true_iff, String.eqb_neq. now apply Hfresh.
    + apply filter_twice.
  - rewrite (orders_delete_ok w2 _ id Hc2 Hd2),
      (orders_delete_ok w1 st id Hc1 Hd1). split.
    + intros Hfresh. apply filter_all_true. intros x Hx.
      apply negb_true_iff, String.eqb_neq. now apply Hfresh.
    + apply filter_twice.
Qed.

Lemma delete_is_idempotent_witness :
  confirmAnswer Sample.deleteAccepted
    "Are you sure you want to delete this message?" = true /\
  deleteResult Sample.deleteAccepted "m1" = true /\
  let st1 := fst (run (Messages.handleDelete "m1") Sample.deleteAccepted
                    Sample.inbox) in
  Messages.messages
    (fst (run (Messages.handleDelete "m1") Sample.deleteAccepted st1))
  = Messages.messages st1.
Proof.
  split; [reflexivity|]. split; [reflexivity|].
  apply (proj2 (proj1 delete_is_idempotent Sample.deleteAccepted
                  Sample.deleteAccepted Sample.inbox "m1"
                  eq_refl eq_refl eq_refl eq_refl)).
Defined.

Lemma delete_declined_is_noop_witness :
  confirmAnswer (Sample.world false true None None None : Messages.W)
    "Are you sure you want to delete this message?" = false /\
  fst (run (Messages.handleDelete "m1")
         (Sample.world false true None None None) Sample.inbox)
  = Sample.inbox.
Proof.
  split; [reflexivity|].
  rewrite (proj1 delete_declined_is_noop
             (Sample.world false true None None None) Sample.inbox "m1" eq_refl).
  reflexivity.
Defined.

(** ** Pinning *)

(** X8. A pin toggle or a "Complete" whose patch the backend rejects leaves
    the screen state as it was and shows one alert; the patch that was tried
    carries the opposite of the flag the card had, respectively the status
    "completed". *)
Theorem rejected_patch_changes_nothing :
  (forall (w : Messages.W) (st : Messages.State) (id : string) (cur : bool),
      patchResult w id (Messages.mkPinPatch (negb cur)) = None ->
      run (Messages.togglePin id cur) w st
      = (st, [EvPatch id (Messages.mkPinPatch (negb cur)) None;
              EvAlert "Failed to update pin state"])) /\
  (forall (w : Orders.W) (st : Orders.State) (orderId : string),
      patchResult w orderId Orders.completedPatch = None ->
      run (Orders.handleComplete orderId) w st
      = (st, [EvPatch orderId Orders.completedPatch None;
              EvAlert "Failed to mark order as completed"]) /\
      Orders.pl_status Orders.completedPatch = Some "completed").
Proof.
  split.
  - intros w st id cur Hp. unfold Messages.togglePin. cbn. now rewrite Hp.
  - intros w st id Hp. unfold Orders.handleComplete. cbn. now rewrite Hp.
Qed.

Lemma rejected_patch_changes_nothing_witness :
  patchResult Sample.loadWorld "m2" (Messages.mkPinPatch (negb false)) = None /\
  fst (run (Messages.togglePin "m2" false) Sample.loadWorld Sample.loaded)
  = Sample.loaded.
Proof.
  split; [reflexivity|].
  rewrite (proj1 rejected_patch_changes_nothing Sample.loadWorld Sample.loaded
             "m2" false eq_refl).
  reflexivity.
Defined.

Lemma withPinned_same (m : Messages.Message) :
  Messages.withPinned m (Messages.pinned m) = m.
Proof. destruct m; reflexivity. Qed.

(** X9. Pinning and unpinning again restores the list.  When every message
    with the toggled id shows the flag the first toggle was called with, and
    the backend answers each of the two patches with the flag it was asked to
    set, the list after the second toggle is the list before the first. *)
Theorem togglePin_twice_restores
    (w1 w2 : Messages.W) (st : Messages.State) (id : string) (cur : bool)
    (u1 u2 : Messages.Message) :
  (forall m, In m (Messages.messages st) -> Messages._id m = id ->
             Messages.pinned m = cur) ->
  patchResult w1 id (Messages.mkPinPatch (negb cur)) = Some u1 ->
  Messages.pinned u1 = negb cur ->
  patchResult w2 id (Messages.mkPinPatch (negb (negb cur))) = Some u2 ->
  Messages.pinned u2 = negb (negb cur) ->
  let st1 := fst (run (Messages.togglePin id cur) w1 st) in
  fst (run (Messages.togglePin id (negb cur)) w2 st1) = st.
Proof.
  intros Hflag H1 Hu1 H2 Hu2 st1. subst st1.
  unfold Messages.togglePin. cbn. rewrite H1. cbn. rewrite H2. cbn.
  rewrite Hu1, Hu2, negb_involutive. unfold Messages.setMessages. cbn.
  rewrite map_map. destruct st as [l ld sel]. cbn in *. f_equal.
  rewrite <- (map_id l) at 2. apply map_ext_in. intros m Hm.
  destruct (Messages._id m =? id)%string eqn:E; cbn; rewrite E; [|reflexivity].
  apply String.eqb_eq in E. rewrite <- (Hflag m Hm E).
  destruct m; reflexivity.
Qed.

Lemma togglePin_twice_restores_witness :
  fst (run (Messages.togglePin "m2" (negb false))
         (Sample.world true true (Some Sample.msgNew) None None)
         (fst (run (Messages.togglePin "m2" false) Sample.pinWorld Sample.loaded)))
  = Sample.loaded.
Proof.
  apply (togglePin_twice_restores Sample.pinWorld
           (Sample.world true true (Some Sample.msgNew) None None)
           Sample.loaded "m2" false
           (Messages.withPinned Sample.msgNew true) Sample.msgNew).
  - intros m [Hm|[Hm|[]]] Hid; subst m; [discriminate Hid|reflexivity].
  - reflexivity.
  - reflexivity.
  - reflexivity.
  - reflexivity.
Defined.

(** X10. An accepted pin toggle moves the card to the section of the flag
    the backend returned: afterward every message with the toggled id is in
    the pinned section when that flag is set and in the other section when it
    is not, never in both, and the two sections of the messages with another
    id are what they were. *)
Theorem togglePin_moves_card
    (w : Messages.W) (st : Messages.State) (id : string) (cur : bool)
    (updated : Messages.Message) :
  patchResult w id (Messages.mkPinPatch (negb cur)) = Some updated ->
  let st' := fst (run (Messages.togglePin id cur) w st) in
  (forall m, In m (Messages.messages st) -> Messages._id m = id ->
     In (Messages.withPinned m (Messages.pinned updated))
        (if Messages.pinned updated
         then Messages.pinnedMessages st' else Messages.unpinnedMessages st')) /\
  (forall m, In m (if Messages.pinned updated
                   then Messages.unpinnedMessages st'
                   else Messages.pinnedMessages st') ->
             Messages._id m <> id) /\
  (forall m, Messages._id m <> id ->
     (In m (Messages.pinnedMessages st') <-> In m (Messages.pinnedMessages st)) /\
     (In m (Messages.unpinnedMessages st') <-> In m (Messages.unpinnedMessages st))).
Proof.
  intros Hok st'. subst st'. unfold Messages.togglePin. cbn. rewrite Hok. cbn.
  unfold Messages.pinnedMessages, Messages.unpinnedMessages. cbn.
  set (f := fun msg => if (Messages._id msg =? id)%string
                       then Messages.withPinned msg (Messages.pinned updated)
                       else msg).
  assert (Hin : forall m, In m (map f (Messages.messages st)) <->
                          exists m0, In m0 (Messages.messages st) /\ f m0 = m).
  { intros m. rewrite in_map_iff. split; intros (m0 & A & B); exists m0; tauto. }
  split; [|split].
  - intros m Hm Hid.
    assert (Hf : f m = Messages.withPinned m (Messages.pinned updated)).
    { unfold f. apply String.eqb_eq in Hid. now rewrite Hid. }
    destruct (Messages.pinned updated) eqn:Ep; apply filter_In; rewrite Hin;
      (split; [exists m; split; [exact Hm|exact Hf]|reflexivity]).
  - intros m Hm Hid.
    destruct (Messages.pinned updated) eqn:Ep; apply filter_In in Hm;
      destruct Hm as [Hm Hflag]; apply Hin in Hm; destruct Hm as (m0 & Hm0 & Hf);
      subst m; unfold f in Hid, Hflag;
      destruct (Messages._id m0 =? id)%string eqn:E;
      try (apply String.eqb_neq in E; contradiction);
      cbn in Hflag; try rewrite Ep in Hflag; discriminate.
  - intros m Hne. rewrite !filter_In, !Hin.
    assert (Hsame : forall m0, f m0 = m -> m0 = m).
    { intros m0 Hf. unfold f in Hf.
      destruct (Messages._id m0 =? id)%string eqn:E; [|exact Hf].
      apply String.eqb_eq in E. subst m. now destruct Hne. }
    assert (Hfix : f m = m).
    { unfold f. apply String.eqb_neq in Hne. now rewrite Hne. }
    split; split; intros [A B]; split; try exact B.
    + destruct A as (m0 & Hm0 & Hf). now rewrite <- (Hsame m0 Hf).
    + exists m. tauto.
    + destruct A as (m0 & Hm0 & Hf). now rewrite <- (Hsame m0 Hf).
    + exists m. tauto.
Qed.

Lemma togglePin_moves_card_witness :
  patchResult Sample.pinWorld "m2" (Messages.mkPinPatch (negb false))
  = Some (Messages.withPinned Sample.msgNew true) /\
  In (Messages.withPinned Sample.msgNew true)
    (Messages.pinnedMessages
       (fst (run (Messages.togglePin "m2" false) Sample.pinWorld Sample.loaded))).
Proof.
  split; [reflexivity|].
  apply (proj1 (togglePin_moves_card Sample.pinWorld Sample.loaded "m2" false
                  (Messages.withPinned Sample.msgNew true) eq_refl)
           Sample.msgNew).
  - right. left. reflexivity.
  - reflexivity.
Defined.

(** ** Orders: completing, sections, creating *)

Lemma withStatus_same (o : Orders.Order) :
  Orders.withStatus o (Orders.status o) = o.
Proof. destruct o; reflexivity. Qed.

(** X11. An accepted "Complete" moves the order out of the pending section
    and into the completed one, and takes nothing back: afterward no order
    with that id is pending, every order of the list with that id is listed
    as completed with its other fields untouched, every order that was listed
    as completed still is, and the orders with another id are where they
    were. *)
Theorem complete_moves_order
    (w : Orders.W) (st : Orders.State) (orderId : string) (answer : Orders.Order) :
  patchResult w orderId Orders.completedPatch = Some answer ->
  let st' := fst (run (Orders.handleComplete orderId) w st) in
  (forall o, In o (Orders.pendingOrders st') -> Orders._id o <> orderId) /\
  (forall o, In o (Orders.orders st) -> Orders._id o = orderId ->
             In (Orders.withStatus o "completed") (Orders.completedOrders st')) /\
  (forall o, In o (Orders.completedOrders st) ->
             In o (Orders.completedOrders st')) /\
  (forall o, In o (Orders.orders st) -> Orders._id o <> orderId ->
             (In o (Orders.pendingOrders st) -> In o (Orders.pendingOrders st')) /\
             In o (Orders.orders st')) /\
  List.length (Orders.orders st') = List.length (Orders.orders st).
Proof.
  intros Hok st'. subst st'. unfold Orders.handleComplete. cbn. rewrite Hok. cbn.
  unfold Orders.pendingOrders, Orders.completedOrders. cbn.
  set (f := fun order => if (Orders._id order =? orderId)%string
                         then Orders.withStatus order "completed" else order).
  assert (Hother : forall o, Orders._id o <> orderId -> f o = o).
  { intros o Hne. unfold f. apply String.eqb_neq in Hne. now rewrite Hne. }
  assert (Hthis : forall o, Orders._id o = orderId ->
                            f o = Orders.withStatus o "completed").
  { intros o He. unfold f. apply String.eqb_eq in He. now rewrite He. }
  repeat apply conj.
  - intros o Ho Hid. apply filter_In in Ho. destruct Ho as [Ho Hs].
    apply in_map_iff in Ho. destruct Ho as (o0 & Hf & Ho0). subst o.
    unfold f in Hid, Hs. destruct (Orders._id o0 =? orderId)%string eqn:E.
    + cbn in Hs. discriminate.
    + apply String.eqb_neq in E. contradiction.
  - intros o Ho Hid. apply filter_In. split; [|reflexivity].
    apply in_map_iff. exists o. split; [now apply Hthis|exact Ho].
  - intros o Ho. apply filter_In in Ho. destruct Ho as [Ho Hs].
    apply filter_In. split; [|exact Hs].
    apply in_map_iff. exists o. split; [|exact Ho].
    unfold f. destruct (Orders._id o =? orderId)%string; [|reflexivity].
    apply String.eqb_eq in Hs. rewrite <- Hs. apply withStatus_same.
  - intros o Ho Hne. split.
    + intros Hp. apply filter_In in Hp. destruct Hp as [_ Hs].
      apply filter_In. split; [|exact Hs].
      apply in_map_iff. exists o. split; [now apply Hother|assumption].
    + apply in_map_iff. exists o. split; [now apply Hother|assumption].
  - apply length_map.
Qed.

Lemma complete_moves_order_witness :
  patchResult (Sample.storeOf Sample.order1) "o1" Orders.completedPatch
  = Some (Sample.applyFields Orders.completedPatch Sample.order1) /\
  In (Orders.withStatus Sample.order1 "completed")
    (Orders.completedOrders
       (fst (run (Orders.handleComplete "o1") (Sample.storeOf Sample.order1)
               Sample.ordersScreen))).
Proof.
  split; [reflexivity|].
  apply (proj1 (proj2 (complete_moves_order (Sample.storeOf Sample.order1)
                         Sample.ordersScreen "o1" _ eq_refl))
           Sample.order1).
  - left. reflexivity.
  - reflexivity.
Defined.

(** X12. The two sections of the orders screen never share an order, and an
    order whose status is neither "pending" nor "completed" is shown in
    neither; so the sections together never show more orders than the list
    holds. *)
Theorem order_sections_are_disjoint (st : Orders.State) :
  (forall o, In o (Orders.pendingOrders st) ->
             ~ In o (Orders.completedOrders st)) /\
  (forall o, Orders.status o <> "pending" -> Orders.status o <> "completed" ->
             ~ In o (Orders.pendingOrders st) /\
             ~ In o (Orders.completedOrders st)) /\
  (List.length (Orders.pendingOrders st)
   + List.length (Orders.completedOrders st)
   <= List.length (Orders.orders st))%nat.
Proof.
  unfold Orders.pendingOrders, Orders.completedOrders. repeat apply conj.
  - intros o Hp Hc. apply filter_In in Hp. apply filter_In in Hc.
    destruct Hp as [_ Hp], Hc as [_ Hc].
    apply String.eqb_eq in Hp. rewrite Hp in Hc. discriminate.
  - intros o Hp Hc. split; intros Hin; apply filter_In in Hin;
      destruct Hin as [_ Hs]; apply String.eqb_eq in Hs; contradiction.
  - induction (Orders.orders st) as [|o l IH]; [cbn; lia|]. cbn.
    destruct (Orders.status o =? "pending")%string eqn:Ep.
    + apply String.eqb_eq in Ep. rewrite Ep. cbn. lia.
    + destruct (Orders.status o =? "completed")%string; cbn; lia.
Qed.

Lemma order_sections_are_disjoint_witness :
  Orders.status (Orders.withStatus Sample.order1 "shipped") <> "pending" /\
  Orders.status (Orders.withStatus Sample.order1 "shipped") <> "completed" /\
  ~ In (Orders.withStatus Sample.order1 "shipped")
      (Orders.pendingOrders
         (Orders.mkState [Orders.withStatus Sample.order1 "shipped"] false None
            false Orders.emptyInput)).
Proof.
  assert (H1 : Orders.status (Orders.withStatus Sample.order1 "shipped")
               <> "pending") by discriminate.
  assert (H2 : Orders.status (Orders.withStatus Sample.order1 "shipped")
               <> "completed") by discriminate.
  split; [exact H1|]. split; [exact H2|].
  apply (proj1 (proj2 (order_sections_are_disjoint _)) _ H1 H2).
Defined.

(** X13. Whatever the form buffer holds, also a status, the document sent by
    the create handler of the orders screen has type "order" and status
    "pending"; its creation time is the one of the buffer when that is not
    empty and the current time otherwise; and the line items it carries are
    the id strings read from the cart text. *)
Theorem new_order_is_pending (now : string) (w : Orders.W) (st : Orders.State) :
  exists payload answer rest,
    snd (fire (Orders.handleAddNew now) w st) = EvCreate payload answer :: rest /\
    Orders.pl__type payload = Some "order" /\
    Orders.pl_status payload = Some "pending" /\
    (exists created,
        Orders.pl_createdAt payload = Some created /\
        (created = now \/ Orders.in_createdAt (Orders.formState st) = Some created) /\
        (now <> "" -> created <> "") /\
        (forall c, Orders.in_createdAt (Orders.formState st) = Some c ->
                   c <> "" -> created = c)) /\
    Orders.pl_cartItems payload
    = Some (Orders.cartItemsArray (Orders.formState st)) /\
    Orders.pl_fullName payload = Orders.in_fullName (Orders.formState st) /\
    Orders.pl_amount payload = Orders.in_amount (Orders.formState st).
Proof.
  rewrite orders_addNew_fire. cbv zeta.
  exists (Orders.createData now (Orders.formState st)).
  destruct (createResult w _); do 2 eexists; (split; [reflexivity|]);
    cbn; (do 2 (split; [reflexivity|])); (split; [|repeat split]);
    (eexists; split; [reflexivity|]);
    unfold orDefault, truthy;
    destruct (Orders.in_createdAt (Orders.formState st)) as [c|];
    try destruct (c =? "")%string eqn:E; cbn;
    repeat split; auto;
    try (intros c0 H0 Hne; inversion H0; subst; try reflexivity;
         apply String.eqb_neq in Hne; congruence);
    try (intros _; now apply String.eqb_neq);
    try (intros c0 H0; discriminate).
Qed.

(** ** Orders: the cart text *)

Lemma split_length (s : string) :
  List.length (split comma s) = S (countChar comma s).
Proof.
  induction s as [|c rest IH]; [reflexivity|]. cbn [split countChar].
  destruct (Ascii.eqb c comma).
  - cbn. now rewrite IH.
  - destruct (split comma rest) as [|piece more]; cbn in *; lia.
Qed.

(** X14. A cart text that is not empty always yields one id more than it has
    commas, empty ids included: a trailing comma or two commas in a row send
    an empty id string, and a text of white space alone sends one. *)
Theorem cart_ids_one_more_than_commas (fs : Orders.OrderInput) (text : string) :
  Orders.in_cartItems fs = Some text ->
  text <> "" ->
  List.length (Orders.cartItemsArray fs) = S (countChar comma text) /\
  Orders.cartItemsArray fs <> [].
Proof.
  intros Ht Hne. unfold Orders.cartItemsArray. rewrite Ht.
  apply String.eqb_neq in Hne. unfold truthy. rewrite Hne. cbn [negb].
  assert (Hlen : List.length (map trim (split comma text))
                 = S (countChar comma text)).
  { rewrite length_map. apply split_length. }
  split; [exact Hlen|]. intros Hnil. rewrite Hnil in Hlen. discriminate.
Qed.

Lemma cart_ids_one_more_than_commas_witness :
  Orders.in_cartItems Sample.trailingComma = Some "p1, p7," /\
  "p1, p7," <> "" /\
  List.length (Orders.cartItemsArray Sample.trailingComma) = 3.
Proof.
  assert (Hne : "p1, p7," <> "") by discriminate.
  split; [reflexivity|]. split; [exact Hne|].
  apply (proj1 (cart_ids_one_more_than_commas Sample.trailingComma "p1, p7,"
                  eq_refl Hne)).
Defined.

Lemma edit_then_update_sends_product_ids_witness :
  truthy (Orders._id Sample.order1) = true /\
  forallb cleanId
    (map (fun item => Orders.product_id (Orders.product item))
       (Orders.cartItems Sample.order1)) = true /\
  exists payload answer rest,
    snd (fire Orders.handleUpdate (Sample.storeOf Sample.order1)
           (fst (run (Orders.handleEditClick Sample.order1)
                   (Sample.storeOf Sample.order1) Sample.ordersScreen)))
    = EvPatch "o1" payload answer :: rest /\
    Orders.pl_cartItems payload = Some ["p1"; "p7"].
Proof.
  split; [reflexivity|]. split; [reflexivity|].
  apply (edit_then_update_sends_product_ids (Sample.storeOf Sample.order1)
           (Sample.storeOf Sample.order1) Sample.ordersScreen Sample.order1
           eq_refl eq_refl).
Defined.

(** ** Users: the guard of the add form *)

Lemma orDefault_empty_truthy (o : option string) :
  orDefault o "" <> "" <-> truthyOpt o = true.
Proof.
  destruct o as [s|]; cbn; [|split; [intros H; now destruct H|discriminate]].
  unfold truthy. destruct (s =? "")%string eqn:E; cbn.
  - split; [intros H; now destruct H|discriminate].
  - apply String.eqb_neq in E. tauto.
Qed.

(** X16. The add-user handler rejects a buffer exactly when one of the nine
    guarded inputs of the form shows nothing (the role is not guarded).  A
    rejected submission shows the alert "Please fill in all required
    fields.", issues no backend call and leaves the screen, the open form and
    its buffer included, as it was; a submission whose nine guarded inputs
    all show something is let through, and its first act is the create
    call. *)
Theorem user_create_guard (w : Users.W) (st : Users.State) :
  ((exists inputName,
       In inputName UsersForm.guardedInputs /\
       UsersForm.shownValue inputName (Users.formState st) = "") ->
   fire Users.handleAddNew w st
   = (st, [EvAlert "Please fill in all required fields."])) /\
  ((forall inputName,
       In inputName UsersForm.guardedInputs ->
       UsersForm.shownValue inputName (Users.formState st) <> "") ->
   exists rest,
     snd (fire Users.handleAddNew w st)
     = EvCreate (Users.newUserData (Users.formState st))
         (createResult w (Users.newUserData (Users.formState st))) :: rest /\
     existsb isAlert rest
     = match createResult w (Users.newUserData (Users.formState st)) with
       | Some _ => false
       | None => true
       end) /\
  (Users.missingRequired (Users.formState st) = false <->
   forall inputName,
     In inputName UsersForm.guardedInputs ->
     UsersForm.shownValue inputName (Users.formState st) <> "") /\
  ~ In "role" UsersForm.guardedInputs.
Proof.
  assert (Hiff : Users.missingRequired (Users.formState st) = false <->
                 forall inputName,
                   In inputName UsersForm.guardedInputs ->
                   UsersForm.shownValue inputName (Users.formState st) <> "").
  { unfold Users.missingRequired. rewrite !orb_false_iff, !negb_false_iff.
    rewrite <- !orDefault_empty_truthy. split.
    + intros Hall n Hin. decompose [and] Hall. cbn in Hin.
      repeat (destruct Hin as [<-|Hin]; [assumption|]). destruct Hin.
    + intros H. repeat split;
        match goal with
        | |- orDefault (Users.in_name _) _ <> _ => apply (H "name")
        | |- orDefault (Users.in_email _) _ <> _ => apply (H "email")
        | |- orDefault (Users.in_mobileNumber _) _ <> _ => apply (H "mobileNumber")
        | |- orDefault (Users.in_password _) _ <> _ => apply (H "password")
        | |- orDefault (Users.addressField Users.in_street _) _ <> _ =>
            apply (H "address.street")
        | |- orDefault (Users.addressField Users.in_city _) _ <> _ =>
            apply (H "address.city")
        | |- orDefault (Users.addressField Users.in_state _) _ <> _ =>
            apply (H "address.state")
        | |- orDefault (Users.addressField Users.in_country _) _ <> _ =>
            apply (H "address.country")
        | |- orDefault (Users.addressField Users.in_postalCode _) _ <> _ =>
            apply (H "address.postalCode")
        end; cbn; tauto. }
  split; [|split; [|split; [exact Hiff|]]].
  - intros (n & Hin & Hempty). rewrite users_addNew_fire.
    destruct (Users.missingRequired (Users.formState st)) eqn:Hm; [reflexivity|].
    destruct (proj1 Hiff eq_refl n Hin Hempty).
  - intros Hshown. apply Hiff in Hshown.
    rewrite users_addNew_fire, Hshown. cbv zeta.
    destruct (createResult w _); eexists; split; reflexivity.
  - unfold UsersForm.guardedInputs. simpl In.
    intros H. decompose [or] H; try discriminate; assumption.
Qed.

Lemma user_create_guard_witness :
  (exists inputName,
      In inputName UsersForm.guardedInputs /\
      UsersForm.shownValue inputName (Users.formState Sample.addingNobody) = "") /\
  fire Users.handleAddNew Sample.bobCreated Sample.addingNobody
  = (Sample.addingNobody, [EvAlert "Please fill in all required fields."]).
Proof.
  assert (Hex : exists inputName,
             In inputName UsersForm.guardedInputs /\
             UsersForm.shownValue inputName
               (Users.formState Sample.addingNobody) = "").
  { exists "name". split; [left; reflexivity|reflexivity]. }
  split; [exact Hex|].
  apply (proj1 (user_create_guard Sample.bobCreated Sample.addingNobody) Hex).
Defined.

(** ** Users: typing into the form *)

Lemma orDefault_some (v d : string) :
  orDefault (Some v) d = if (v =? "")%string then d else v.
Proof. unfold orDefault, truthy. now destruct (v =? "")%string. Qed.

Lemma in_textInputs (n : string) :
  In n UsersForm.textInputs ->
  n = "name" \/ n = "email" \/ n = "mobileNumber" \/ n = "password" \/
  n = "role" \/ n = "address.street" \/ n = "address.city" \/
  n = "address.state" \/ n = "address.country" \/ n = "address.postalCode".
Proof.
  unfold UsersForm.textInputs. simpl In. intuition congruence.
Qed.

(** X17. Typing into one of the ten text inputs of the users form (the role
    select included) changes what that input shows to the typed value, or to
    the input's placeholder default when the value is empty, and changes
    nothing else: the other nine inputs, the "Is Verified" box and the id of
    the buffer show what they showed.  Ticking the box sets the box and
    leaves the ten inputs alone.  No event of the form leads outside the
    declared properties of the buffer. *)
Theorem typing_changes_one_input (fs : Users.UserInput) :
  (forall inputName value,
      In inputName UsersForm.textInputs ->
      exists fs',
        UsersForm.handleFormChange (UsersForm.typed inputName value) fs = Some fs' /\
        UsersForm.shownValue inputName fs'
        = (if (value =? "")%string
           then (if (inputName =? "role")%string then "user" else "")
           else value) /\
        (forall other,
            In other UsersForm.textInputs -> other <> inputName ->
            UsersForm.shownValue other fs' = UsersForm.shownValue other fs) /\
        UsersForm.shownChecked fs' = UsersForm.shownChecked fs /\
        Users.in__id fs' = Users.in__id fs) /\
  (forall checked,
      exists fs',
        UsersForm.handleFormChange (UsersForm.ticked checked) fs = Some fs' /\
        UsersForm.shownChecked fs' = checked /\
        (forall other, UsersForm.shownValue other fs' = UsersForm.shownValue other fs) /\
        Users.in__id fs' = Users.in__id fs).
Proof.
  destruct fs as [fid fname femail fmobile fpass faddr fver frole].
  split.
  - intros n v Hin. apply in_textInputs in Hin.
    decompose [or] Hin; subst n;
      (eexists; split; [reflexivity|];
       split; [lazy; apply orDefault_some|];
       split; [|split; reflexivity];
       intros other Hother Hne; apply in_textInputs in Hother;
       decompose [or] Hother; subst other;
       try (now destruct Hne);
       destruct faddr as [[? ? ? ? ?]|]; reflexivity).
  - intros b. eexists. split; [reflexivity|]. repeat split.
Qed.

Lemma typing_changes_one_input_witness :
  In "address.city" UsersForm.textInputs /\
  exists fs',
    UsersForm.handleFormChange (UsersForm.typed "address.city" "Paris")
      Users.emptyInput = Some fs' /\
    UsersForm.shownValue "address.city" fs' = "Paris".
Proof.
  assert (Hin : In "address.city" UsersForm.textInputs).
  { unfold UsersForm.textInputs. simpl In. tauto. }
  split; [exact Hin|].
  destruct (proj1 (typing_changes_one_input Users.emptyInput)
              "address.city" "Paris" Hin) as (fs' & Hc & Hs & _).
  exists fs'. split; [exact Hc|exact Hs].
Defined.

(** X18. Filling the add-user form from empty, one change event per guarded
    input, and submitting it sends exactly what was typed: when the nine
    values are not empty the guard lets the submission through and the create
    call carries a document of type "user" with the nine values, not
    verified, with role "user". *)
Theorem filled_form_creates_typed_user
    (w : Users.W) (st : Users.State)
    (vName vEmail vMobile vPass vStreet vCity vState vCountry vPostal : string) :
  forallb truthy
    [vName; vEmail; vMobile; vPass; vStreet; vCity; vState; vCountry; vPostal]
  = true ->
  exists fs,
    UsersForm.changes
      [UsersForm.typed "name" vName;
       UsersForm.typed "email" vEmail;
       UsersForm.typed "mobileNumber" vMobile;
       UsersForm.typed "password" vPass;
       UsersForm.typed "address.street" vStreet;
       UsersForm.typed "address.city" vCity;
       UsersForm.typed "address.state" vState;
       UsersForm.typed "address.country" vCountry;
       UsersForm.typed "address.postalCode" vPostal]
      Users.emptyInput = Some fs /\
    exists answer rest,
      snd (fire Users.handleAddNew w (Users.setFormState fs st))
      = EvCreate
          (Users.mkNewUserDocument "user" vName vEmail vMobile vPass
             (Users.mkAddress vStreet vCity vState vCountry vPostal)
             false "user")
          answer :: rest.
Proof.
  intros Hall. simpl forallb in Hall.
  repeat (apply andb_true_iff in Hall; destruct Hall as [? Hall]).
  eexists. split.
  - lazy. reflexivity.
  - rewrite users_addNew_fire.
    lazy -[createResult truthy].
    repeat match goal with
           | H : truthy _ = true |- _ => rewrite H; clear H
           end.
    lazy -[createResult].
    destruct (createResult w _); do 2 eexists; reflexivity.
Qed.

Lemma filled_form_creates_typed_user_witness :
  exists fs answer rest,
    UsersForm.changes
      [UsersForm.typed "name" "Bob";
       UsersForm.typed "email" "bob@example.org";
       UsersForm.typed "mobileNumber" "555-0102";
       UsersForm.typed "password" "battery staple";
       UsersForm.typed "address.street" "9 Oak Ave";
       UsersForm.typed "address.city" "Shelbyville";
       UsersForm.typed "address.state" "IL";
       UsersForm.typed "address.country" "US";
       UsersForm.typed "address.postalCode" "62565"]
      Users.emptyInput = Some fs /\
    snd (fire Users.handleAddNew Sample.bobCreated
           (Users.setFormState fs Sample.addingBob))
    = EvCreate
        (Users.mkNewUserDocument "user" "Bob" "bob@example.org" "555-0102"
           "battery staple"
           (Users.mkAddress "9 Oak Ave" "Shelbyville" "IL" "US" "62565")
           false "user")
        answer :: rest.
Proof.
  destruct (filled_form_creates_typed_user Sample.bobCreated Sample.addingBob
              "Bob" "bob@example.org" "555-0102" "battery staple" "9 Oak Ave"
              "Shelbyville" "IL" "US" "62565" eq_refl)
    as (fs & Hc & answer & rest & Htr).
  exists fs, answer, rest. split; [exact Hc|exact Htr].
Defined.

(** ** Products: editing, uploading, overlapping updates *)

Lemma orDefault_self (x : string) : orDefault (Some x) "" = x.
Proof.
  unfold orDefault, truthy. destruct (x =? "")%string eqn:E; [|reflexivity].
  apply String.eqb_eq in E. now subst.
Qed.

Lemma localOfDoc_fields (doc : Products.ProductDoc) (preview : string) :
  Products.localOfDoc doc preview
  = Products.mkProduct (Products.doc__id doc) (Products.doc_name doc)
      (Some (Products.mkImage (Products.mkAsset None preview)))
      (Products.doc_price doc) (Products.doc_description doc)
      (Products.doc_discountPercentage doc)
      (Products.doc_isFeaturedProduct doc) (Products.doc_stockLevel doc)
      (Products.doc_category doc).
Proof.
  unfold Products.localOfDoc. now rewrite orDefault_self.
Qed.

(** X19. Opening the editor on a product and submitting it, without an
    upload in between, keeps the picture.  The buffer, which is the payload of
    the patch, holds the id and the seven scalar fields of the product and no
    image.  When the patch is accepted, the list keeps its length; every
    record with the edited id is replaced by the record made of the id and
    every field of the returned document and of the image address the product
    had, without a reference; the other records stay; and the form closes
    with an empty buffer and an empty preview. *)
Theorem product_edit_keeps_image
    (w0 w : Products.W) (st : Products.State) (p : Products.Product)
    (updated : Products.ProductDoc) :
  truthy (Products._id p) = true ->
  let st1 := fst (run (Products.handleEditClick p) w0 st) in
  patchResult w (Products._id p) (Products.formState st1) = Some updated ->
  let st2 := fst (fire Products.onSubmit w st1) in
  Products.formState st1
  = Products.mkProductInput (Some (Products._id p)) (Some (Products.name p))
      None (Some (Products.price p)) (Some (Products.description p))
      (Some (Products.discountPercentage p))
      (Some (Products.isFeaturedProduct p)) (Some (Products.stockLevel p))
      (Some (Products.category p)) /\
  snd (fire Products.onSubmit w st1)
  = [EvPatch (Products._id p) (Products.formState st1) (Some updated)] /\
  List.length (Products.products st2) = List.length (Products.products st) /\
  (forall i q,
      nth_error (Products.products st) i = Some q ->
      nth_error (Products.products st2) i
      = Some (if (Products._id q =? Products._id p)%string
              then Products.mkProduct (Products.doc__id updated)
                     (Products.doc_name updated)
                     (Some (Products.mkImage
                              (Products.mkAsset None (Products.imageUrlOf p))))
                     (Products.doc_price updated)
                     (Products.doc_description updated)
                     (Products.doc_discountPercentage updated)
                     (Products.doc_isFeaturedProduct updated)
                     (Products.doc_stockLevel updated)
                     (Products.doc_category updated)
              else q)) /\
  Products.isFormOpen st2 = false /\
  Products.editingProduct st2 = None /\
  Products.formState st2 = Products.emptyInput /\
  Products.imagePreview st2 = "".
Proof.
  intros Hid st1 Hok st2. subst st1 st2.
  assert (He : Products.editingProduct
                 (fst (run (Products.handleEditClick p) w0 st)) = Some p)
    by reflexivity.
  assert (Hfire : fire Products.onSubmit w
                    (fst (run (Products.handleEditClick p) w0 st))
                  = fire Products.handleUpdate w
                      (fst (run (Products.handleEditClick p) w0 st)))
    by reflexivity.
  rewrite Hfire, (products_update_fire w _ p He Hid), Hok.
  split; [reflexivity|]. split; [reflexivity|].
  cbn [fst Products.products].
  change (Products.products (fst (run (Products.handleEditClick p) w0 st)))
    with (Products.products st).
  change (Products.imagePreview (fst (run (Products.handleEditClick p) w0 st)))
    with (Products.imageUrlOf p).
  split; [apply length_map|]. split; [|repeat split].
  intros i q Hi. rewrite nth_error_map, Hi. cbn [option_map].
  now rewrite localOfDoc_fields.
Qed.

Lemma product_edit_keeps_image_witness :
  truthy (Products._id Sample.chair) = true /\
  nth_error
    (Products.products
       (fst (fire Products.onSubmit
               (Sample.world true true (Some Sample.chairRepriced) None None)
               (fst (run (Products.handleEditClick Sample.chair)
                       Sample.deletedThenOffline Sample.shop))))) 0
  = Some (Products.mkProduct "p1" "Oak chair"
            (Some (Products.mkImage
                     (Products.mkAsset None "https://cdn.example.org/chair.png")))
            "99" "Solid oak" 0 false 4 "Chair").
Proof.
  split; [reflexivity|].
  apply (proj1 (proj2 (proj2 (proj2
           (product_edit_keeps_image Sample.deletedThenOffline
              (Sample.world true true (Some Sample.chairRepriced) None None)
              Sample.shop Sample.chair Sample.chairRepriced
              eq_refl eq_refl))))
           0 Sample.chair eq_refl).
Defined.

(** X20. Choosing a picture touches only the image of the form: when the
    upload is accepted no alert is shown, the buffer is what it was but for
    its image, which is a reference to the stored asset, the preview is the
    asset's address, and the list, the loading flag and the editor stay.  A
    create submitted next sends the buffer's fields with that reference, and
    when it is accepted the record it appends is made of the returned
    document and of the uploaded picture.  When the upload is rejected the
    state is what it was and one alert is shown; without a file nothing
    happens. *)
Theorem image_upload_feeds_create
    (upload : ProductsUpload.FileInfo -> option ProductsUpload.UploadedAsset)
    (w : Products.W) (st : Products.State) (file : ProductsUpload.FileInfo) :
  (forall stored,
      upload file = Some stored ->
      let fs := Products.formState st in
      let st1 := fst (ProductsUpload.handleImageUpload (Some file) upload st) in
      let payload :=
        Products.mkProductCreate "product" (Products.in__id fs)
          (Products.in_name fs) (Some (ProductsUpload.asset__id stored))
          (Products.in_price fs) (Products.in_description fs)
          (Products.in_discountPercentage fs) (Products.in_isFeaturedProduct fs)
          (Products.in_stockLevel fs) (orDefault (Products.in_category fs) "Chair") in
      snd (ProductsUpload.handleImageUpload (Some file) upload st) = [] /\
      st1 = Products.mkState (Products.products st) (Products.loading st)
              (Products.editingProduct st) (Products.showAddForm st)
              (Products.mkProductInput (Products.in__id fs) (Products.in_name fs)
                 (Some (ProductsUpload.asset__id stored)) (Products.in_price fs)
                 (Products.in_description fs) (Products.in_discountPercentage fs)
                 (Products.in_isFeaturedProduct fs) (Products.in_stockLevel fs)
                 (Products.in_category fs))
              (ProductsUpload.asset_url stored) /\
      (exists rest,
          snd (fire Products.handleAddNew w st1)
          = EvCreate payload (createResult w payload) :: rest) /\
      (forall newProduct,
          createResult w payload = Some newProduct ->
          Products.products (fst (fire Products.handleAddNew w st1))
          = Products.products st
            ++ [Products.mkProduct (Products.doc__id newProduct)
                  (Products.doc_name newProduct)
                  (Some (Products.mkImage
                           (Products.mkAsset None
                              (ProductsUpload.asset_url stored))))
                  (Products.doc_price newProduct)
                  (Products.doc_description newProduct)
                  (Products.doc_discountPercentage newProduct)
                  (Products.doc_isFeaturedProduct newProduct)
                  (Products.doc_stockLevel newProduct)
                  (Products.doc_category newProduct)])) /\
  (upload file = None ->
   ProductsUpload.handleImageUpload (Some file) upload st
   = (st, ["Image upload failed"])) /\
  ProductsUpload.handleImageUpload None upload st = (st, []).
Proof.
  split; [|split].
  - intros stored Hup fs st1 payload. subst fs st1 payload.
    unfold ProductsUpload.handleImageUpload. rewrite Hup. cbn [fst snd].
    split; [reflexivity|]. split; [reflexivity|].
    rewrite products_addNew_fire. cbv zeta.
    change (Products.createData
              (Products.formState
                 (Products.setImagePreview (ProductsUpload.asset_url stored)
                    (Products.setFormState
                       (ProductsUpload.withImage
                          (ProductsUpload.asset__id stored)
                          (Products.formState st)) st))))
      with (Products.mkProductCreate "product"
              (Products.in__id (Products.formState st))
              (Products.in_name (Products.formState st))
              (Some (ProductsUpload.asset__id stored))
              (Products.in_price (Products.formState st))
              (Products.in_description (Products.formState st))
              (Products.in_discountPercentage (Products.formState st))
              (Products.in_isFeaturedProduct (Products.formState st))
              (Products.in_stockLevel (Products.formState st))
              (orDefault (Products.in_category (Products.formState st)) "Chair")).
    destruct (createResult w _) as [d|]; cbn [fst snd].
    + split; [eexists; reflexivity|].
      intros newProduct Hn. inversion Hn; subst.
      cbn [Products.products Products.imagePreview Products.setImagePreview].
      now rewrite localOfDoc_fields.
    + split; [eexists; reflexivity|]. discriminate.
  - intros Hup. unfold ProductsUpload.handleImageUpload. now rewrite Hup.
  - reflexivity.
Qed.

Lemma image_upload_feeds_create_witness :
  (fun _ => Some Sample.storedPhoto) Sample.chairPhoto = Some Sample.storedPhoto /\
  fst (ProductsUpload.handleImageUpload (Some Sample.chairPhoto)
         (fun _ => Some Sample.storedPhoto) Sample.addingDesk)
  = Products.mkState [Sample.chair] false None true
      (Products.mkProductInput None (Some "Desk") (Some "image-abc123-png")
         (Some "10") None None None None (Some "Chair"))
      "https://cdn.example.org/abc123.png".
Proof.
  split; [reflexivity|].
  apply (proj1 (proj2 (proj1 (image_upload_feeds_create
                                (fun _ => Some Sample.storedPhoto)
                                Sample.deletedThenOffline Sample.addingDesk
                                Sample.chairPhoto)
                         Sample.storedPhoto eq_refl))).
Defined.

(** X22. The update handler of the products screen writes a list computed
    from the list of the render that created it, while the one of the users
    screen transforms the list of the moment the patch resolves.  So when the
    list changed while a product patch was in flight, the change is undone:
    the list after the update is, position by position, the list of the old
    render with every record of the edited id replaced by the record made of
    the returned document and the old render's preview, whatever the list was
    in between; on the users screen it is the list of the moment with the
    edited records replaced, so records that arrived in between are kept. *)
Theorem product_update_writes_render_list
    (w : Products.W) (rendered now : Products.State) (ep : Products.Product)
    (updated : Products.ProductDoc) :
  Products.editingProduct rendered = Some ep ->
  truthy (Products._id ep) = true ->
  patchResult w (Products._id ep) (Products.formState rendered) = Some updated ->
  let after := fst (run (Products.handleUpdate rendered) w now) in
  let replacement :=
    Products.mkProduct (Products.doc__id updated) (Products.doc_name updated)
      (Some (Products.mkImage
               (Products.mkAsset None (Products.imagePreview rendered))))
      (Products.doc_price updated) (Products.doc_description updated)
      (Products.doc_discountPercentage updated)
      (Products.doc_isFeaturedProduct updated) (Products.doc_stockLevel updated)
      (Products.doc_category updated) in
  List.length (Products.products after) = List.length (Products.products rendered) /\
  (forall i q,
      nth_error (Products.products rendered) i = Some q ->
      nth_error (Products.products after) i
      = Some (if (Products._id q =? Products._id ep)%string
              then replacement else q)) /\
  (forall q, In q (Products.products after) ->
             In q (Products.products rendered) \/ q = replacement) /\
  (forall q, In q (Products.products rendered) ->
             Products._id q <> Products._id ep ->
             In q (Products.products after)) /\
  (forall (wu : Users.W) (urendered unow : Users.State) (eu uupdated : Users.User),
      Users.editingUser urendered = Some eu ->
      truthy (Users._id eu) = true ->
      patchResult wu (Users._id eu) (Users.formState urendered) = Some uupdated ->
      let uafter := fst (run (Users.handleUpdate urendered) wu unow) in
      (forall i u,
          nth_error (Users.users unow) i = Some u ->
          nth_error (Users.users uafter) i
          = Some (if (Users._id u =? Users._id eu)%string then uupdated else u)) /\
      (forall u, In u (Users.users unow) -> Users._id u <> Users._id eu ->
                 In u (Users.users uafter))).
Proof.
  intros He Hid Hok after replacement. subst after replacement.
  rewrite <- localOfDoc_fields.
  unfold Products.handleUpdate. rewrite He, Hid. cbn. rewrite Hok. cbn.
  split; [apply length_map|]. split; [|split; [|split]].
  - intros i q Hi. now rewrite nth_error_map, Hi.
  - intros q Hq. apply in_map_iff in Hq. destruct Hq as (q0 & Hf & Hq0).
    destruct (Products._id q0 =? Products._id ep)%string; subst q; tauto.
  - intros q Hq Hne. apply in_map_iff. exists q. split; [|exact Hq].
    apply String.eqb_neq in Hne. now rewrite Hne.
  - intros wu ur un eu uu Hue Huid Huok.
    unfold Users.handleUpdate. rewrite Hue, Huid. cbn. rewrite Huok. cbn. split.
    + intros i u Hi. now rewrite nth_error_map, Hi.
    + intros u Hu Hne. apply in_map_iff. exists u. split; [|exact Hu].
      apply String.eqb_neq in Hne. now rewrite Hne.
Qed.

Lemma product_update_writes_render_list_witness :
  let rendered := fst (run (Products.handleEditClick Sample.chair)
                         Sample.deletedThenOffline Sample.shop) in
  let now := Products.setProducts (fun _ => []) rendered in
  Products.editingProduct rendered = Some Sample.chair /\
  truthy (Products._id Sample.chair) = true /\
  Products.products now = [] /\
  List.length
    (Products.products
       (fst (run (Products.handleUpdate rendered)
               (Sample.world true true (Some Sample.chairRepriced) None None)
               now))) = 1.
Proof.
  cbv zeta. split; [reflexivity|]. split; [reflexivity|]. split; [reflexivity|].
  apply (proj1 (product_update_writes_render_list
                  (Sample.world true true (Some Sample.chairRepriced) None None)
                  (fst (run (Products.handleEditClick Sample.chair)
                          Sample.deletedThenOffline Sample.shop))
                  (Products.setProducts (fun _ => [])
                     (fst (run (Products.handleEditClick Sample.chair)
                             Sample.deletedThenOffline Sample.shop)))
                  Sample.chair Sample.chairRepriced eq_refl eq_refl eq_refl)).
Defined.

(** ** The login form of the dashboard *)

Lemma lowerUnit_white (c : ascii) : isWhiteSpace (lowerUnit c) = isWhiteSpace c.
Proof.
  destruct c as [b0 b1 b2 b3 b4 b5 b6 b7].
  destruct b0, b1, b2, b3, b4, b5, b6, b7; reflexivity.
Qed.

Lemma startsWhite_lower (s : string) :
  startsWhite (toLowerCase s) = startsWhite s.
Proof. destruct s; [reflexivity|apply lowerUnit_white]. Qed.

Lemma endsWhite_lower (s : string) : endsWhite (toLowerCase s) = endsWhite s.
Proof.
  induction s as [|c rest IH]; [reflexivity|].
  destruct rest as [|d rest']; [apply lowerUnit_white|].
  cbn [toLowerCase endsWhite] in *. exact IH.
Qed.

Lemma trimStart_allWhite (s : string) : allWhite s = true -> trimStart s = "".
Proof.
  induction s as [|c rest IH]; [reflexivity|]. cbn.
  intros H. apply andb_true_iff in H. destruct H as [Hc Hr].
  rewrite Hc. now apply IH.
Qed.

Lemma trimEnd_allWhite (s : string) : allWhite s = true -> trimEnd s = "".
Proof.
  induction s as [|c rest IH]; [reflexivity|]. cbn.
  intros H. apply andb_true_iff in H. destruct H as [Hc Hr].
  rewrite (IH Hr), Hc. reflexivity.
Qed.

Lemma trimStart_skips (before s : string) :
  allWhite before = true -> trimStart (before ++ s) = trimStart s.
Proof.
  induction before as [|c rest IH]; [reflexivity|]. cbn.
  intros H. apply andb_true_iff in H. destruct H as [Hc Hr].
  rewrite Hc. now apply IH.
Qed.

Lemma trimEnd_drops (core after : string) :
  endsWhite core = false -> allWhite after = true ->
  trimEnd (core ++ after) = core.
Proof.
  intros He Ha. induction core as [|c rest IH].
  - now apply trimEnd_allWhite.
  - cbn [append trimEnd]. destruct rest as [|d rest'].
    + cbn [append]. rewrite (trimEnd_allWhite after Ha).
      cbn in He. now rewrite He.
    + rewrite (IH He). reflexivity.
Qed.

Lemma trim_padded (before core after : string) :
  allWhite before = true -> allWhite after = true ->
  startsWhite core = false -> endsWhite core = false ->
  trim (before ++ core ++ after) = core.
Proof.
  intros Hb Ha Hs He. unfold trim. rewrite (trimStart_skips _ _ Hb).
  destruct core as [|c rest].
  - cbn [append]. now rewrite (trimStart_allWhite after Ha).
  - cbn [append trimStart]. cbn in Hs. rewrite Hs.
    apply (trimEnd_drops (String c rest) after He Ha).
Qed.

Lemma allowed_iff (entered : string) :
  toLowerCase (trim entered) = Dashboard.allowedEmail <-> isAllowedAddress entered.
Proof.
  split.
  - intros H. destruct (trim_is_trim entered) as (before & after & Heq & Hb & Ha & _).
    exists before, (trim entered), after. tauto.
  - intros (before & core & after & Heq & Hb & Ha & Hl). subst entered.
    rewrite trim_padded; try assumption.
    + rewrite <- startsWhite_lower, Hl. reflexivity.
    + rewrite <- endsWhite_lower, Hl. reflexivity.
Qed.

(** X21. The login form lets through exactly the allowed address, written
    in any mix of capitals and small letters and with white space around it
    at most.  A successful attempt sets the authorized flag and clears the
    error line; a failed attempt sets the error line and never takes an
    authorization back; the entered text is left as typed. *)
Theorem login_accepts_exactly_allowed_address (st : Dashboard.State) :
  let st' := Dashboard.handleSubmit st in
  (Dashboard.authorized st' = true <->
   Dashboard.authorized st = true \/ isAllowedAddress (Dashboard.email st)) /\
  (Dashboard.error st' = "" <-> isAllowedAddress (Dashboard.email st)) /\
  Dashboard.email st' = Dashboard.email st.
Proof.
  cbv zeta. unfold Dashboard.handleSubmit.
  rewrite <- allowed_iff.
  destruct (toLowerCase (trim (Dashboard.email st)) =? Dashboard.allowedEmail)%string
    eqn:E.
  - apply String.eqb_eq in E. cbn. tauto.
  - apply String.eqb_neq in E. cbn. repeat split; try tauto.
    intros H. discriminate H.
Qed.
